(** * dash-hummingbird-components: the remote execution helpers

    A shallow embedding of [dash_hummingbird_components/exec.py] (command
    formatting, local and remote execution, queue submission, status
    normalisation, notebook launch) and of the live status callback of
    [components.py], with the properties the specification states about
    them.

    Conventions.  A Python [str] is represented by its UTF-8 encoding, as a
    Rocq [string] (a list of bytes): the operations used here (searching for
    an ASCII phrase, filtering or replacing ASCII characters, joining) act
    the same way on code points and on their UTF-8 encoding.  A Python [dict]
    whose iteration order matters is an association list in insertion order;
    a set literal is a [gset]; a mapping compared only by content is a
    [gmap].  Exceptions are a sum type. *)

From Stdlib Require Import ZArith Lia Ascii.
From stdpp Require Import base tactics option list strings gmap pretty sorting.

Local Open Scope Z_scope.
Local Open Scope stdpp_scope.

(** ** Python exceptions and results *)

Inductive exn : Type :=
  | TypeError
  | ValueError
  | RuntimeError
  | AssertionError
  | StopIteration
  | KeyError
  | AttributeError
  | UnicodeDecodeError
  | TransportError.

Inductive result (A : Type) : Type :=
  | Ok (a : A)
  | Raise (e : exn).
Arguments Ok {A} a.
Arguments Raise {A} e.

Definition is_ok {A} (r : result A) : bool :=
  match r with Ok _ => true | Raise _ => false end.

#[global] Instance result_ret : MRet result := λ A a, Ok a.
#[global] Instance result_bind : MBind result := λ A B f r,
  match r with Ok a => f a | Raise e => Raise e end.
#[global] Instance result_fmap : FMap result := λ A B f r,
  match r with Ok a => Ok (f a) | Raise e => Raise e end.

(** ** Python string operations *)

Module PyStr.

(** [needle in hay] *)
Fixpoint contains (needle hay : string) : bool :=
  if String.prefix needle hay then true
  else match hay with
       | EmptyString => false
       | String _ t => contains needle t
       end.

(** [s.replace(old, new)] for a non-empty [old]: scan from the left,
    and at each match emit [new] and skip the matched characters.
    [skip] counts the characters of the current match still to drop. *)
Fixpoint replace_from (old new : string) (skip : nat) (s : string) : string :=
  match s with
  | EmptyString => EmptyString
  | String c t =>
      match skip with
      | S k => replace_from old new k t
      | O =>
          if String.prefix old s
          then new +:+ replace_from old new (Nat.pred (String.length old)) t
          else String c (replace_from old new 0 t)
      end
  end.

(** [s.replace(old, new)]; with an empty [old] Python puts [new] before
    every character and at the end. *)
Definition replace (old new s : string) : string :=
  match old with
  | EmptyString =>
      new +:+ (fix go (s : string) : string :=
                 match s with
                 | EmptyString => EmptyString
                 | String c t => String c (new +:+ go t)
                 end) s
  | String _ _ => replace_from old new 0 s
  end.

(** [sep.join(parts)] *)
Definition join (sep : string) (parts : list string) : string :=
  String.concat sep parts.

(** ["".join(filter(p, s))] *)
Fixpoint filter (p : ascii -> bool) (s : string) : string :=
  match s with
  | EmptyString => EmptyString
  | String c t => if p c then String c (filter p t) else filter p t
  end.

(** [x in string.digits] for a one-character [x] *)
Definition in_digits (c : ascii) : bool :=
  match Ascii.is_nat c with Some _ => true | None => false end.

(** [int(s)] on a string of ASCII decimal digits, the only strings it is
    applied to here (the result of the digit filter).  The empty string
    is a [ValueError]; a character that is not a digit is reported as
    [ValueError] too (the signs, blanks and underscores [int] also
    accepts never reach it).  Integers are unbounded: the cap an
    interpreter may put on the number of digits is taken as lifted. *)
Fixpoint int_digits (acc : Z) (s : string) : option Z :=
  match s with
  | EmptyString => Some acc
  | String c t =>
      match Ascii.is_nat c with
      | Some d => int_digits (10 * acc + Z.of_nat d) t
      | None => None
      end
  end.

Definition int (s : string) : result Z :=
  match s with
  | EmptyString => Raise ValueError
  | String _ _ =>
      match int_digits 0 s with
      | Some n => Ok n
      | None => Raise ValueError
      end
  end.

End PyStr.

(** ** Values passed as command options ([Dict[str, Any]])

    [resolve_cmd] looks at an option value in three ways only: is it a
    [bool], is it [None], and what is [str(value)].  Any object that is
    neither [bool], [None], [int] nor [str] is represented by its string
    form. *)

Inductive pyany : Type :=
  | PyNone
  | PyBool (b : bool)
  | PyInt (n : Z)
  | PyStr (s : string)
  | PyOther (str_form : string).

(** [str(value)] *)
Definition py_str (v : pyany) : string :=
  match v with
  | PyNone => "None"
  | PyBool true => "True"
  | PyBool false => "False"
  | PyInt n => pretty n
  | PyStr s => s
  | PyOther s => s
  end.

(** ** exec.py: command formatting *)

(** [CMDType = Union[str, List[str], Tuple[str, Dict[str, Any]]]].
    [CmdBadTuple] is a tuple whose length is not 2; [CmdOther] stands for an
    argument of any other type, and records whether [len()] is defined on
    it. *)
Inductive CMDType : Type :=
  | CmdStr (s : string)
  | CmdList (tokens : list string)
  | CmdTuple (base : string) (options : list (string * pyany))
  | CmdBadTuple
  | CmdOther (has_len : bool).

(** [return "'" + str(value).replace(r"'", r"\''") + "'"] *)
Definition shell_escape (value : pyany) : string :=
  "'" +:+ PyStr.replace "'" "\''" (py_str value) +:+ "'".

(** One turn of the loop [for k, v in cmd[1].items()] on the list [cmdStr]. *)
Definition resolve_option (cmdStr : list string) (kv : string * pyany) : list string :=
  let '(k, v) := kv in
  match v with
  | PyBool b => if b then cmdStr ++ ["--" +:+ k] else cmdStr
  | PyNone => cmdStr
  | _ => cmdStr ++ ["--" +:+ k +:+ "=" +:+ shell_escape v]
  end.

(** [resolve_cmd(cmd)]; a tuple of another length fails the assertion. *)
Definition resolve_cmd (cmd : CMDType) : result string :=
  match cmd with
  | CmdStr s => Ok s
  | CmdList tokens => Ok (PyStr.join " " tokens)
  | CmdTuple base options =>
      Ok (PyStr.join " " (foldl resolve_option [base] options))
  | CmdBadTuple => Raise AssertionError
  | CmdOther _ => Raise TypeError
  end.

(** ** A reader with POSIX shell quoting

    The shell that receives a resolved command splits it into words and
    removes quoting (POSIX.1 Shell Command Language, 2.2): between single
    quotes every character is literal, a backslash included, and the next
    single quote ends the quoted part; outside quotes a backslash makes the
    next character literal (a backslash-newline pair is dropped) and blanks
    separate words.  Double quotes, expansions and operators are outside
    this fragment: the reader answers [None] on them, as it does on an
    unterminated quote. *)

Inductive sh_mode : Type := ShUnquoted | ShSingle | ShEscaped.

(** Space, tab and newline separate words. *)
Definition sh_blank (c : ascii) : bool :=
  bool_decide (c = " "%char) || bool_decide (c = "009"%char) || bool_decide (c = "010"%char).

(** Characters with a meaning of their own outside quotes. *)
Definition sh_special (c : ascii) : bool :=
  bool_decide (c ∈ ["034";"$";"`";"&";"|";";";"<";">";"(";")";"*";"?";"[";"#";"~"]%char).

(** Adds a literal character to the word being read. *)
Definition sh_push (cur : option string) (c : ascii) : option string :=
  Some (default "" cur +:+ String c "").

(** A quote or a backslash starts a word if none is being read. *)
Definition sh_open (cur : option string) : option string :=
  Some (default "" cur).

(** Reads [s] in mode [m]; [cur] is the word being read, if any. *)
Fixpoint sh_lex (m : sh_mode) (cur : option string) (s : string) : option (list string) :=
  match s with
  | EmptyString =>
      match m with
      | ShUnquoted => Some (match cur with Some w => [w] | None => [] end)
      | _ => None
      end
  | String c t =>
      match m with
      | ShSingle =>
          if bool_decide (c = "'"%char) then sh_lex ShUnquoted cur t
          else sh_lex ShSingle (sh_push cur c) t
      | ShEscaped =>
          if bool_decide (c = "010"%char) then sh_lex ShUnquoted cur t
          else sh_lex ShUnquoted (sh_push cur c) t
      | ShUnquoted =>
          if bool_decide (c = "'"%char) then sh_lex ShSingle (sh_open cur) t
          else if bool_decide (c = "\"%char) then sh_lex ShEscaped (sh_open cur) t
          else if sh_blank c then
            match cur with
            | Some w => cons w <$> sh_lex ShUnquoted None t
            | None => sh_lex ShUnquoted None t
            end
          else if sh_special c then None
          else sh_lex ShUnquoted (sh_push cur c) t
      end
  end.

(** The words a POSIX shell reads from a command line. *)
Definition sh_words (line : string) : option (list string) :=
  sh_lex ShUnquoted None line.

(** ** UTF-8

    [bytes.decode("utf8")] accepts exactly the well-formed UTF-8 sequences
    (no overlong forms, no surrogates, nothing above U+10FFFF). *)

Definition byte_in (lo hi : N) (c : ascii) : bool :=
  ((lo <=? N_of_ascii c) && (N_of_ascii c <=? hi))%N.

Definition utf8_cont : ascii -> bool := byte_in 128 191.

Definition utf8_lead3 (b0 b1 : ascii) : bool :=
  (byte_in 224 224 b0 && byte_in 160 191 b1)
  || (byte_in 225 236 b0 && utf8_cont b1)
  || (byte_in 237 237 b0 && byte_in 128 159 b1)
  || (byte_in 238 239 b0 && utf8_cont b1).

Definition utf8_lead4 (b0 b1 : ascii) : bool :=
  (byte_in 240 240 b0 && byte_in 144 191 b1)
  || (byte_in 241 243 b0 && utf8_cont b1)
  || (byte_in 244 244 b0 && byte_in 128 143 b1).

Fixpoint valid_utf8 (s : string) : bool :=
  match s with
  | EmptyString => true
  | String b0 t =>
      if byte_in 0 127 b0 then valid_utf8 t
      else match t with
           | EmptyString => false
           | String b1 t1 =>
               if byte_in 194 223 b0 then utf8_cont b1 && valid_utf8 t1
               else match t1 with
                    | EmptyString => false
                    | String b2 t2 =>
                        if byte_in 224 239 b0
                        then utf8_lead3 b0 b1 && utf8_cont b2 && valid_utf8 t2
                        else match t2 with
                             | EmptyString => false
                             | String b3 t3 =>
                                 utf8_lead4 b0 b1 && utf8_cont b2 && utf8_cont b3
                                 && valid_utf8 t3
                             end
                    end
           end
  end.

(** [data.decode("utf8")]: the [str] is represented by these same bytes. *)
Definition decode_utf8 (data : string) : result string :=
  if valid_utf8 data then Ok data else Raise UnicodeDecodeError.

(** ** JSON values, as [json.loads] builds them (floats left out) *)

#[local] Set Warnings "-register-all".

Inductive json : Type :=
  | JNull
  | JBool (b : bool)
  | JInt (n : Z)
  | JStr (s : string)
  | JList (items : list json)
  | JDict (entries : list (string * json)).

(** [k in d] and [d[k]] on the entries of a dict *)
Fixpoint dict_get (k : string) (entries : list (string * json)) : option json :=
  match entries with
  | [] => None
  | (k', v) :: rest => if bool_decide (k' = k) then Some v else dict_get k rest
  end.

(** [next(iter(d.keys()))] *)
Definition first_key (entries : list (string * json)) : result string :=
  match entries with
  | [] => Raise StopIteration
  | (k, _) :: _ => Ok k
  end.

(** [j[k]] on an arbitrary value *)
Definition json_item (k : string) (j : json) : result json :=
  match j with
  | JDict entries =>
      match dict_get k entries with
      | Some v => Ok v
      | None => Raise KeyError
      end
  | _ => Raise TypeError
  end.

(** Truth value of a JSON value, as [if x] tests it. *)
Definition json_truthy (j : json) : bool :=
  match j with
  | JNull => false
  | JBool b => b
  | JInt n => negb (n =? 0)
  | JStr s => negb (bool_decide (s = ""))
  | JList l => negb (bool_decide (length l = 0%nat))
  | JDict d => negb (bool_decide (length d = 0%nat))
  end.

(** ** exec.py: status normalisation *)

(** [simplify_pueue_status(status)]; the value returned is whatever
    Python object the code returns, a string or not. *)
Definition simplify_pueue_status (status : json) : result json :=
  match status with
  | JStr s => Ok (JStr s)
  | JDict entries =>
      match dict_get "Done" entries with
      | Some (JDict inner) => JStr <$> first_key inner
      | Some detail => Ok detail
      | None => JStr <$> first_key entries
      end
  | _ => Raise TypeError
  end.

(** ** components.py: the element tree shown for a task *)

(** What an element displays: a value taken from the status, or a time
    stamp ([None] until reached). *)
Inductive content : Type :=
  | Text (j : json)
  | Time (t : option string).

Inductive html : Type :=
  | Div (children : list html) (className : option string)
  | P (text : string)
  | Span (child : content) (className : option string)
  | A (text href target : string)
  | Markdown (text : string).

(** ** Effects

    Every call that leaves the process is recorded, in order, in a trace.
    What the outside answers is given by a [World]: the answer may depend on
    everything that happened before (the call itself comes last in the
    trace the oracle is given). *)

Inductive event : Type :=
  | EvPopen (cmd : CMDType)
  | EvProgress (stdout : string)
  | EvConnect (host user key_filename : string)
  | EvExecCommand (cmd : string)
  | EvClose
  | EvSetProgress (title : string) (ui : list html)
  | EvSleep (seconds : Z).

Definition trace : Type := list event.

(** The module-level settings [ENV]. *)
Record Env : Type := {
  KNOWN_HOSTS : string;
  PUBKEY : string;
  JUPYTER_TEMPLATE_FOLDER : string;
  JUPYTER_NOTEBOOK_FOLDER : string;
  JUPYTER_USER : string;
  JUPYTER_HOST : string;
  JUPYTER_PORT : string;
  JUPYTER_KERNEL_NAME : string;
  WORKER_HOST : string;
  WORKER_USER : string;
}.

Definition default_ENV : Env := {|
  KNOWN_HOSTS := "~/.ssh/known_hosts";
  PUBKEY := "~/.ssh/id_ed25519.pub";
  JUPYTER_TEMPLATE_FOLDER := "~/notebooks/templates";
  JUPYTER_NOTEBOOK_FOLDER := "~/notebooks";
  JUPYTER_USER := "task_runner";
  JUPYTER_HOST := "192.168.0.94";
  JUPYTER_PORT := "10123";
  JUPYTER_KERNEL_NAME := "python3";
  WORKER_HOST := "192.168.0.94";
  WORKER_USER := "task_runner";
|}.

(** [if f"DHC_{key}" in os.environ: ENV[key] = os.environ[f"DHC_{key}"]] *)
Definition env_setting (environ : gmap string string) (key dflt : string) : string :=
  default dflt (environ !! ("DHC_" +:+ key)).

Definition load_ENV (environ : gmap string string) : Env := {|
  KNOWN_HOSTS := env_setting environ "KNOWN_HOSTS" (KNOWN_HOSTS default_ENV);
  PUBKEY := env_setting environ "PUBKEY" (PUBKEY default_ENV);
  JUPYTER_TEMPLATE_FOLDER :=
    env_setting environ "JUPYTER_TEMPLATE_FOLDER" (JUPYTER_TEMPLATE_FOLDER default_ENV);
  JUPYTER_NOTEBOOK_FOLDER :=
    env_setting environ "JUPYTER_NOTEBOOK_FOLDER" (JUPYTER_NOTEBOOK_FOLDER default_ENV);
  JUPYTER_USER := env_setting environ "JUPYTER_USER" (JUPYTER_USER default_ENV);
  JUPYTER_HOST := env_setting environ "JUPYTER_HOST" (JUPYTER_HOST default_ENV);
  JUPYTER_PORT := env_setting environ "JUPYTER_PORT" (JUPYTER_PORT default_ENV);
  JUPYTER_KERNEL_NAME :=
    env_setting environ "JUPYTER_KERNEL_NAME" (JUPYTER_KERNEL_NAME default_ENV);
  WORKER_HOST := env_setting environ "WORKER_HOST" (WORKER_HOST default_ENV);
  WORKER_USER := env_setting environ "WORKER_USER" (WORKER_USER default_ENV);
|}.

(** The libraries and machines the module talks to. *)
Record World : Type := {
  ENV : Env;
  (** [subprocess.Popen(cmd, shell=True)]: the lines the process writes *)
  popen : trace → CMDType → result (list string);
  (** [SSH.connect(host, username, key_filename)] *)
  ssh_connect : trace → string → string → string → result ();
  (** [SSH.exec_command(cmd)] then [stdout.read()]: the bytes answered *)
  ssh_exec_command : trace → string → result string;
  (** [json.loads] *)
  json_loads : string → result json;
  (** [datetime.datetime.fromisoformat], a date being kept as its text *)
  fromisoformat : string → result string;
  (** [str()] of a list or of a dict *)
  container_str : json → string;
  (** [f"{datetime.datetime.now():%Y-%m-%d_%H-%M-%S-%f}"] *)
  now_stamp : trace → string;
  (** [yaml.dump] *)
  yaml_dump : gmap string pyany → string;
  (** [str(Path(p).expanduser())]: the path with a leading [~] replaced by
      the home directory, which the process is taken to have *)
  expanduser : string → string;
}.

(** Computations: a trace goes in, a result or an exception and the
    extended trace come out. *)
Definition M (A : Type) : Type := trace → result A * trace.

Definition ret {A} (a : A) : M A := λ t, (Ok a, t).
Definition raise {A} (e : exn) : M A := λ t, (Raise e, t).
Definition bind {A B} (m : M A) (k : A → M B) : M B := λ t,
  match m t with
  | (Ok a, t') => k a t'
  | (Raise e, t') => (Raise e, t')
  end.
Definition lift {A} (r : result A) : M A := λ t, (r, t).
Definition emit (ev : event) : M () := λ t, (Ok (), t ++ [ev]).
Definition ask {A} (oracle : trace → result A) : M A := λ t, (oracle t, t).

Notation "'let*' x ':=' m 'in' k" := (bind m (λ x, k))
  (at level 10, x pattern, m at level 100, k at level 200).

(** [x or dflt] for an optional string argument *)
Definition py_or (x : option string) (dflt : string) : string :=
  match x with
  | Some (String c s) => String c s
  | _ => dflt
  end.

(** ** exec.py: execution, submission, status *)

Section Exec.
Context (W : World).

(** The loop [for line in process.stdout] of the local branch. *)
Fixpoint read_stdout (progress : bool) (stdout : string) (lines : list string) : M string :=
  match lines with
  | [] => ret stdout
  | line :: rest =>
      let* text := lift (decode_utf8 line) in
      let stdout := stdout +:+ text in
      let* _ := (if progress then emit (EvProgress stdout) else ret ()) in
      read_stdout progress stdout rest
  end.

(** [len(cmd) > 4000], evaluated to choose the log line. *)
Definition cmd_len_check (cmd : CMDType) : result () :=
  match cmd with
  | CmdOther false => Raise TypeError
  | _ => Ok ()
  end.

(** [progress] tells whether a callable was passed. *)
Definition execute (cmd : CMDType) (user host : option string)
    (progress : bool) (local : bool) : M string :=
  if local then
    let* _ := emit (EvPopen cmd) in
    let* lines := ask (λ t, popen W t cmd) in
    read_stdout progress "" lines
  else
    let host := py_or host (WORKER_HOST (ENV W)) in
    let user := py_or user (WORKER_USER (ENV W)) in
    let* _ := lift (cmd_len_check cmd) in
    let key_filename := expanduser W (PUBKEY (ENV W)) in
    let* _ := emit (EvConnect host user key_filename) in
    let* _ := ask (λ t, ssh_connect W t host user key_filename) in
    let* cmd := lift (resolve_cmd cmd) in
    let* _ := emit (EvExecCommand cmd) in
    let* out := ask (λ t, ssh_exec_command W t cmd) in
    let* stdout := lift (decode_utf8 out) in
    let* _ := emit EvClose in
    ret stdout.

(** [available_tasks = {"train", "inference", "create"}] *)
Definition available_tasks : gset string := {["train"; "inference"; "create"]}.

(** [queue(cmd, task, user, host)] *)
Definition queue (cmd : CMDType) (task : string) (user host : option string) : M Z :=
  if bool_decide (task ∈ available_tasks) then
    let* cmd := lift (resolve_cmd cmd) in
    let* stdout :=
      execute (CmdStr ("./pueue add -g " +:+ task +:+ " -- " +:+ cmd)) user host false false in
    if PyStr.contains "New task added" stdout
    then lift (PyStr.int (PyStr.filter PyStr.in_digits stdout))
    else raise RuntimeError
  else raise ValueError.

(** The dict [status_] that [status] returns. *)
Record status_dict : Type := {
  st_id : json;
  st_command : json;
  st_group : json;
  st_status : json;
  st_started_at : option string;
  st_ended_at : option string;
  st_created_at : option string;
  st_log : json;
}.

(** [x.split("+")[0]] *)
Fixpoint before_plus (s : string) : string :=
  match s with
  | EmptyString => EmptyString
  | String c t => if bool_decide (c = "+"%char) then EmptyString else String c (before_plus t)
  end.

(** [s[:n]]; a time stamp is ASCII, so that bytes and characters agree. *)
Fixpoint str_take (n : nat) (s : string) : string :=
  match n, s with
  | S k, String c t => String c (str_take k t)
  | _, _ => EmptyString
  end.

(** [time_parser = lambda x: datetime.datetime.fromisoformat(x.split("+")[0][:10]) if x else None] *)
Definition time_parser (x : json) : result (option string) :=
  if json_truthy x then
    match x with
    | JStr s => Some <$> fromisoformat W (str_take 10 (before_plus s))
    | _ => Raise AttributeError
    end
  else Ok None.

(** [status(task_id, full, user, host)] *)
Definition status (task_id : pyany) (full : bool) (user host : option string) : M status_dict :=
  let task_id := py_str task_id in
  let flags := if full then " -f" else " -l 100" in
  let* logj :=
    execute (CmdStr ("./pueue log -j " +:+ task_id +:+ " " +:+ flags)) user host false false in
  lift (
    logj ← json_loads W logj ≫= json_item task_id;
    let task_field (name : string) := json_item "task" logj ≫= json_item name in
    id ← task_field "id";
    command ← task_field "command";
    group ← task_field "group";
    status ← task_field "status" ≫= simplify_pueue_status;
    started_at ← task_field "start" ≫= time_parser;
    ended_at ← task_field "end" ≫= time_parser;
    created_at ← task_field "created_at" ≫= time_parser;
    log ← json_item "output" logj;
    mret {| st_id := id; st_command := command; st_group := group; st_status := status;
            st_started_at := started_at; st_ended_at := ended_at;
            st_created_at := created_at; st_log := log |}).

(** ** components.py: [PueueLog] *)

(** A value inside an f-string. *)
Definition py_format (j : json) : string :=
  match j with
  | JNull => "None"
  | JBool true => "True"
  | JBool false => "False"
  | JInt n => pretty n
  | JStr s => s
  | _ => container_str W j
  end.

(** An upper-case ASCII letter becomes lower-case. *)
Definition ascii_lower (c : ascii) : ascii :=
  if byte_in 65 90 c then ascii_of_N (N_of_ascii c + 32) else c.

(** [s.lower()], on ASCII letters (the status labels are ASCII). *)
Fixpoint str_lower (s : string) : string :=
  match s with
  | EmptyString => EmptyString
  | String c t => String (ascii_lower c) (str_lower t)
  end.

(** [status['status'].lower()] *)
Definition json_lower (j : json) : result string :=
  match j with
  | JStr s => Ok (str_lower s)
  | _ => Raise AttributeError
  end.

(** The newline and the indentation of the triple-quoted text. *)
Definition nl : string := String "010"%char "".
Definition indent16 : string := "                ".

(** The list stored under ["ui"]. *)
Definition status_ui (task_id : string) (st : status_dict) : result (list html) :=
  tag ← json_lower (st_status st);
  mret [
    Div [
      Div [P "Status"; Span (Text (st_status st)) (Some ("tag " +:+ tag))] None;
      Div [P "Created at"; Span (Time (st_created_at st)) None] None;
      Div [P "Started at"; Span (Time (st_started_at st)) None] None;
      Div [P "Ended at"; Span (Time (st_ended_at st)) None] None
    ] (Some "columns");
    A "Open in a new tab" ("http://192.168.0.93:8007/log/" +:+ task_id) "_blank";
    Markdown (
      nl +:+ indent16 +:+
      "The command below is queued for execution. You can follow the execution progress in the log below."
      +:+ nl +:+ nl +:+ indent16 +:+ "```bash" +:+ nl +:+ indent16 +:+ py_format (st_command st)
      +:+ nl +:+ indent16 +:+ "```" +:+ nl +:+ nl +:+ indent16 +:+
      "The logging output of this task:" +:+ nl +:+ "            ");
    Markdown ("```csharp" +:+ nl +:+ py_format (st_log st))
  ].

(** [PueueLog.__pueue_status]: the status with its ["ui"] entry. *)
Definition __pueue_status (task_id : string) (full : bool) : M (status_dict * list html) :=
  let* st := status (PyStr task_id) full None None in
  let* ui := lift (status_ui task_id st) in
  ret (st, ui).

(** The set literal the loop tests the status against. *)
Definition terminal_states : gset string :=
  {["Finished"; "Failed"; "Killed"; "Success"]}.

(** [status_["status"] in {"Finished", "Failed", "Killed", "Success"}];
    a list or a dict cannot be looked up in a set. *)
Definition in_terminal_states (j : json) : result bool :=
  match j with
  | JStr s => Ok (bool_decide (s ∈ terminal_states))
  | JList _ | JDict _ => Raise TypeError
  | _ => Ok false
  end.

(** What the callback hands back to the framework. *)
Inductive callback_result : Type :=
  | no_update
  | Outputs (title : string) (log : list html) (className : string).

(** The [while True] loop of the live branch.  [fuel] bounds the number
    of turns; [None] says the loop was still running when it ran out. *)
Fixpoint live_loop (fuel : nat) (task_id : string) (full : bool)
    : M (option (status_dict * list html)) :=
  match fuel with
  | O => ret None
  | S fuel =>
      let* status_ := __pueue_status task_id full in
      let* done := lift (in_terminal_states (st_status status_.1)) in
      if (done : bool) then ret (Some status_)
      else
        let* _ := emit (EvSetProgress
                          ("Task " +:+ py_format (st_id status_.1) +:+ " @ "
                           +:+ py_format (st_group status_.1) +:+ "...")
                          status_.2) in
        let* _ := emit (EvSleep 5) in
        live_loop fuel task_id full
  end.

(** [PueueLog.__pueue_status_callback(set_progress, task_id, is_live, full)] *)
Definition __pueue_status_callback (fuel : nat)
    (task_id : option string) (is_live full : option bool) : M (option callback_result) :=
  match task_id, is_live, full with
  | Some (String c s), Some is_live, Some full =>
      let task_id := String c s in
      let* status_ :=
        (if is_live then live_loop fuel task_id full
         else let* status_ := __pueue_status task_id full in ret (Some status_)) in
      match status_ with
      | Some status_ =>
          ret (Some (Outputs ("Task " +:+ py_format (st_id status_.1) +:+ " @"
                              +:+ py_format (st_group status_.1))
                             status_.2 ""))
      | None => ret None
      end
  | _, _, _ => ret (Some no_update)
  end.

End Exec.

(** ** Base64 (RFC 4648), as [base64.b64encode] and a strict decoder *)

Module Base64.

Definition alphabet : string :=
  "ABCDEFGHIJKLMNOPQRSTUVWXYZabcdefghijklmnopqrstuvwxyz0123456789+/".

(** Six bits, most significant first. *)
Definition sextet : Type := bool * bool * bool * bool * bool * bool.

Definition sextet_index (x : sextet) : nat :=
  let '(b5, b4, b3, b2, b1, b0) := x in
  (32 * Nat.b2n b5 + 16 * Nat.b2n b4 + 8 * Nat.b2n b3
   + 4 * Nat.b2n b2 + 2 * Nat.b2n b1 + Nat.b2n b0)%nat.

Definition index_sextet (i : nat) : sextet :=
  (Nat.testbit i 5, Nat.testbit i 4, Nat.testbit i 3,
   Nat.testbit i 2, Nat.testbit i 1, Nat.testbit i 0).

Definition char_of (x : sextet) : ascii :=
  default "="%char (String.get (sextet_index x) alphabet).

Fixpoint index_of (c : ascii) (s : string) : option nat :=
  match s with
  | EmptyString => None
  | String c' t => if bool_decide (c' = c) then Some O else S <$> index_of c t
  end.

Definition sextet_of (c : ascii) : option sextet :=
  index_sextet <$> index_of c alphabet.

Fixpoint b64encode (s : string) : string :=
  match s with
  | EmptyString => EmptyString
  | String (Ascii a0 a1 a2 a3 a4 a5 a6 a7) EmptyString =>
      String (char_of (a7, a6, a5, a4, a3, a2))
        (String (char_of (a1, a0, false, false, false, false)) "==")
  | String (Ascii a0 a1 a2 a3 a4 a5 a6 a7)
      (String (Ascii b0 b1 b2 b3 b4 b5 b6 b7) EmptyString) =>
      String (char_of (a7, a6, a5, a4, a3, a2))
        (String (char_of (a1, a0, b7, b6, b5, b4))
           (String (char_of (b3, b2, b1, b0, false, false)) "="))
  | String (Ascii a0 a1 a2 a3 a4 a5 a6 a7)
      (String (Ascii b0 b1 b2 b3 b4 b5 b6 b7)
         (String (Ascii c0 c1 c2 c3 c4 c5 c6 c7) t)) =>
      String (char_of (a7, a6, a5, a4, a3, a2))
        (String (char_of (a1, a0, b7, b6, b5, b4))
           (String (char_of (b3, b2, b1, b0, c7, c6))
              (String (char_of (c5, c4, c3, c2, c1, c0)) (b64encode t))))
  end.

Definition byte1 (x y : sextet) : ascii :=
  let '(x5, x4, x3, x2, x1, x0) := x in
  let '(y5, y4, _, _, _, _) := y in
  Ascii y4 y5 x0 x1 x2 x3 x4 x5.

Definition byte2 (y z : sextet) : ascii :=
  let '(_, _, y3, y2, y1, y0) := y in
  let '(z5, z4, z3, z2, _, _) := z in
  Ascii z2 z3 z4 z5 y0 y1 y2 y3.

Definition byte3 (z w : sextet) : ascii :=
  let '(_, _, _, _, z1, z0) := z in
  let '(w5, w4, w3, w2, w1, w0) := w in
  Ascii w0 w1 w2 w3 w4 w5 z0 z1.

(** Groups of four characters; padding only in the last group. *)
Fixpoint b64decode (s : string) : option string :=
  match s with
  | EmptyString => Some EmptyString
  | String c0 (String c1 (String c2 (String c3 t))) =>
      x ← sextet_of c0;
      y ← sextet_of c1;
      match sextet_of c2, sextet_of c3 with
      | Some z, Some w =>
          rest ← b64decode t;
          Some (String (byte1 x y) (String (byte2 y z) (String (byte3 z w) rest)))
      | Some z, None =>
          if bool_decide (c3 = "="%char ∧ t = EmptyString)
          then Some (String (byte1 x y) (String (byte2 y z) EmptyString))
          else None
      | None, _ =>
          if bool_decide (c2 = "="%char ∧ c3 = "="%char ∧ t = EmptyString)
          then Some (String (byte1 x y) EmptyString)
          else None
      end
  | _ => None
  end.

End Base64.

(** ** exec.py: notebook launch *)

Section Notebook.
Context (W : World).

(** [base64.b64encode(yaml.dump(parameters).encode("utf-8")).decode("utf-8")];
    the text [yaml.dump] returns is already in its UTF-8 form here. *)
Definition parameters_encoded (parameters : gmap string pyany) : result string :=
  decode_utf8 (Base64.b64encode (yaml_dump W parameters)).

(** The command line handed to the notebook host. *)
Definition papermill_cmd (template notebook encoded : string) : string :=
  "/home/task_runner/miniforge3/envs/hbdx/bin/papermill --prepare-only "
  +:+ template +:+ " " +:+ notebook +:+ " -b " +:+ encoded.

(** [start_notebook(name, parameters)] *)
Definition start_notebook (name : string) (parameters : option (gmap string pyany)) : M string :=
  let parameters := default ∅ parameters in
  let name := PyStr.replace "template_" "" (PyStr.replace ".ipynb" "" name) in
  let template := JUPYTER_TEMPLATE_FOLDER (ENV W) +:+ "/template_" +:+ name +:+ ".ipynb" in
  let* stamp := ask (λ t, Ok (now_stamp W t)) in
  let notebook_name := name +:+ "_" +:+ stamp +:+ ".ipynb" in
  let notebook := JUPYTER_NOTEBOOK_FOLDER (ENV W) +:+ "/generated/" +:+ notebook_name in
  let* encoded := lift (parameters_encoded parameters) in
  let* stdout :=
    execute W (CmdStr (papermill_cmd template notebook encoded))
      (Some (JUPYTER_USER (ENV W))) (Some (JUPYTER_HOST (ENV W))) false false in
  ret ("http://" +:+ JUPYTER_HOST (ENV W) +:+ ":" +:+ JUPYTER_PORT (ENV W)
       +:+ "/notebooks/generated/" +:+ notebook_name
       +:+ "?kernel_name=" +:+ JUPYTER_KERNEL_NAME (ENV W)).

End Notebook.

(** ** Test doubles

    A world whose remote side answers from a fixed script (the n-th
    [exec_command] gets the n-th answer) and whose local process writes
    fixed lines; JSON texts are read and YAML texts written by the small
    functions below. *)

(** [expanduser] in a process whose home directory is [home]. *)
Definition home_expanduser (home p : string) : string :=
  match p with
  | String "~" EmptyString => home
  | String "~" (String "/" rest) => home +:+ "/" +:+ rest
  | _ => p
  end.

Definition is_exec_command (ev : event) : bool :=
  match ev with EvExecCommand _ => true | _ => false end.

Definition exec_count (t : trace) : nat :=
  length (List.filter is_exec_command t).

Definition scripted_world (answers lines : list string)
    (loads : string → result json) (dump : gmap string pyany → string) : World := {|
  ENV := default_ENV;
  popen := λ _ _, Ok lines;
  ssh_connect := λ _ _ _ _, Ok ();
  ssh_exec_command := λ t _,
    match answers !! Nat.pred (exec_count t) with
    | Some a => Ok a
    | None => Raise TransportError
    end;
  json_loads := loads;
  fromisoformat := Ok;
  container_str := λ _, "";
  now_stamp := λ _, "2024-05-01_12-00-00-000000";
  yaml_dump := dump;
  expanduser := home_expanduser "/root";
|}.

(** The log entry of task 7 with a given status field. *)
Definition task7_log (status : json) : json :=
  JDict [("7", JDict [
    ("task", JDict [("id", JInt 7); ("command", JStr "python train.py");
                    ("group", JStr "train"); ("status", status);
                    ("start", JStr "2024-05-01T12:00:00+02:00"); ("end", JNull);
                    ("created_at", JStr "2024-05-01T11:59:00+02:00")]);
    ("output", JStr "epoch 1")])].

(** Reads the two texts the scripted queue answers with. *)
Definition task7_loads (text : string) : result json :=
  if bool_decide (text = "running") then Ok (task7_log (JStr "Running"))
  else if bool_decide (text = "success") then Ok (task7_log (JDict [("Done", JStr "Success")]))
  else Raise ValueError.

(** Block-style YAML for a flat mapping whose keys and strings are plain
    scalars: one [key: value] line per entry. *)
Definition plain_scalar (v : pyany) : string :=
  match v with
  | PyNone => "null"
  | PyBool true => "true"
  | PyBool false => "false"
  | PyInt n => pretty n
  | PyStr s => s
  | PyOther s => s
  end.

Definition plain_yaml_dump (m : gmap string pyany) : string :=
  String.concat ""
    ((λ kv : string * pyany, kv.1 +:+ ": " +:+ plain_scalar kv.2 +:+ nl) <$> map_to_list m).

(** A line of output that is not UTF-8: the byte 255 and a newline. *)
Definition undecodable_line : string := String "255"%char nl.

Definition example_parameters : gmap string pyany :=
  <["alpha" := PyInt 1]> (<["beta" := PyStr "x"]> ∅).

(** * More of the code *)

(** ** More test doubles *)

(** A world whose remote side gives the same answer to every command. *)
Definition steady_world (answer : string) (loads : string → result json) : World := {|
  ENV := default_ENV;
  popen := λ _ _, Ok [];
  ssh_connect := λ _ _ _ _, Ok ();
  ssh_exec_command := λ _ _, Ok answer;
  json_loads := loads;
  fromisoformat := Ok;
  container_str := λ _, "";
  now_stamp := λ _, "2024-05-01_12-00-00-000000";
  yaml_dump := plain_yaml_dump;
  expanduser := home_expanduser "/root";
|}.

(** The steady world of a process started in the environment [environ]. *)
Definition world_in (environ : gmap string string) (answer : string) : World := {|
  ENV := load_ENV environ;
  popen := λ _ _, Ok [];
  ssh_connect := λ _ _ _ _, Ok ();
  ssh_exec_command := λ _ _, Ok answer;
  json_loads := task7_loads;
  fromisoformat := Ok;
  container_str := λ _, "";
  now_stamp := λ _, "2024-05-01_12-00-00-000000";
  yaml_dump := plain_yaml_dump;
  expanduser := home_expanduser "/root";
|}.

(** The log of task 9, queued in the group [default] and killed. *)
Definition task9_loads (text : string) : result json :=
  Ok (JDict [("9", JDict [
    ("task", JDict [("id", JInt 9); ("command", JStr "sleep 60");
                    ("group", JStr "default"); ("status", JDict [("Done", JStr "Killed")]);
                    ("start", JStr "2024-05-02T08:00:00+02:00");
                    ("end", JStr "2024-05-02T08:00:10+02:00");
                    ("created_at", JStr "2024-05-02T07:59:00+02:00")]);
    ("output", JStr "")])]).

(** ** components.py: queue again and kill *)

Section PueueButtons.
Context (W : World).

(** The command of a status, passed to [queue]: a string, a list of
    strings, or anything else JSON can hold (a list with an item that is
    not a string fails in [" ".join], with [TypeError] as well). *)
Definition cmd_of_json (command : json) : CMDType :=
  match command with
  | JStr s => CmdStr s
  | JList items =>
      match mapM (λ j, match j with JStr s => Some s | _ => None end) items with
      | Some tokens => CmdList tokens
      | None => CmdOther true
      end
  | JDict _ => CmdOther true
  | _ => CmdOther false
  end.

(** [exec.queue(command, group)] on the values of a status: a group that is
    not a string is not in the set of groups, and a list or a dict cannot
    even be looked up in it. *)
Definition queue_json (command group : json) : M Z :=
  match group with
  | JStr task => queue W (cmd_of_json command) task None None
  | JList _ | JDict _ => raise TypeError
  | _ => raise ValueError
  end.

(** [PueueLog.__pueue_queue_again_callback(_, task_id)]; [triggered] tells
    whether [ctx.triggered_id] is set, [None] stands for [no_update]. *)
Definition __pueue_queue_again_callback (triggered : bool) (task_id : pyany) : M (option bool) :=
  if negb triggered then ret None
  else
    let* status_ := status W task_id false None None in
    let command := st_command status_ in
    let group := st_group status_ in
    let* _ := queue_json command group in
    ret (Some true).


End PueueButtons.

(** ** components.py: the tag list *)

(** An entry of the options of a dropdown: [{"label": ..., "value": ...}]. *)
Record dropdown_option : Type := { opt_label : string; opt_value : string }.

(** [TagList.__new__]: the options and the value given to the dropdown. *)
Definition TagList (tags options : option (list string)) : list dropdown_option * list string :=
  let tags := default [] tags in
  let options := default [] options in
  let options := List.filter (λ t, negb (bool_decide (t ∈ options))) tags ++ options in
  let options := (λ t, {| opt_label := t; opt_value := t |}) <$> options in
  (options, tags).

(** [taglist_add_tag(value, tags, value_)]; [None] stands for [no_update]. *)
Definition taglist_add_tag (triggered : bool) (value : option string)
    (tags : list dropdown_option) (value_ : option (list string))
    : option (list dropdown_option * list string) :=
  match value with
  | Some (String c s) =>
      let value := String c s in
      if negb triggered then None
      else if bool_decide (value ∈ opt_value <$> tags) then None
      else
        let value_ := default [] value_ in
        Some (tags ++ [{| opt_label := value; opt_value := value |}], value_ ++ [value])
  | _ => None
  end.

(** ** components.py: the notebook starter *)

(** [s.split(sep)[0]] for a separator that is not empty *)
Fixpoint str_split_head (sep s : string) : string :=
  if String.prefix sep s then EmptyString
  else match s with
       | EmptyString => EmptyString
       | String c t => String c (str_split_head sep t)
       end.

(** [s[n:]] *)
Fixpoint str_drop (n : nat) (s : string) : string :=
  match n, s with
  | S k, String _ t => str_drop k t
  | _, _ => s
  end.

(** The id [NotebookStarter.__new__] gives to its link:
    [f"{name}__{param_string}"], where [param_string] is
    [json.dumps(parameters)]. *)
Definition notebookstarter_id (name param_string : string) : string :=
  name +:+ "__" +:+ param_string.

(** [__create_notebook(n_clicks, id_, className)] up to its call of
    [start_notebook]: [Ok None] stands for [no_update]; otherwise the name and
    the text handed to [json.loads], whose result is the parameters.  [id_]
    is the entry ["id"] of the id of the link; a link without a class has
    [className] [None], on which the test [in] raises. *)
Definition create_notebook_request (triggered : bool) (n_clicks : Z) (id_ : string)
    (className : option string) : result (option (string * string)) :=
  if negb triggered then Ok None
  else if n_clicks =? 0 then Ok None
  else match className with
       | None => Raise TypeError
       | Some cls =>
           if PyStr.contains "activated" cls then Ok None
           else
             let name := str_split_head "__" id_ in
             Ok (Some (name, str_drop (String.length name + 2) id_))
       end.

(** ** io.py: outputs for dropdowns and graphs *)

#[global] Instance pyany_eq_dec : EqDecision pyany.
Proof. solve_decision. Defined.

(** A dict with string keys, in insertion order; [d[k] = v]. *)
Fixpoint dict_set (k : string) (v : pyany) (d : list (string * pyany)) : list (string * pyany) :=
  match d with
  | [] => [(k, v)]
  | (k', v') :: rest =>
      if bool_decide (k' = k) then (k, v) :: rest else (k', v') :: dict_set k v rest
  end.

(** [{"label": str(k), "value": str(k), **kwargs} for k in listable] *)
Definition list_to_label_dict (listable : list pyany) (kwargs : list (string * pyany))
    : list (list (string * pyany)) :=
  (λ k, foldl (λ d kv, dict_set kv.1 kv.2 d)
          [("label", PyStr (py_str k)); ("value", PyStr (py_str k))] kwargs) <$> listable.

(** [{"name": k, "id": k, **kwargs} for k in listable] *)
Definition list_to_id_dict (listable : list pyany) (kwargs : list (string * pyany))
    : list (list (string * pyany)) :=
  (λ k, foldl (λ d kv, dict_set kv.1 kv.2 d) [("name", k); ("id", k)] kwargs) <$> listable.

(** The [value] argument and the value returned by [options_output]:
    nothing, one value, or a list of values. *)
Inductive selection (A : Type) : Type :=
  | NoValue
  | OneValue (v : A)
  | ManyValues (vs : list A).
Arguments NoValue {A}.
Arguments OneValue {A} v.
Arguments ManyValues {A} vs.

(** [options_output(listable, all, value)].  The test [value not in
    listable] compares the string with the items: only an item that is
    that very string is equal to it. *)
Definition options_output (listable : list pyany) (all : bool) (value : selection pyany)
    : selection string * list (list (string * pyany)) :=
  let value :=
    match listable with
    | [] => NoValue
    | first :: _ =>
        match value with
        | NoValue =>
            if all then ManyValues (py_str <$> listable) else OneValue (py_str first)
        | ManyValues vs => ManyValues (py_str <$> vs)
        | OneValue v =>
            if bool_decide (PyStr (py_str v) ∈ listable) then OneValue (py_str v)
            else OneValue (py_str first)
        end
    end in
  (value, list_to_label_dict listable []).

(** The part of the config [graph_output] computes: the file name of the
    image button, [name.replace("/", "__")]. *)
Definition graph_output_filename (name : string) : string :=
  PyStr.replace "/" "__" name.

(** ** global_callbacks.py: the parameters in the URL *)

(** The characters [urllib.parse.quote] never escapes: letters, digits and
    [_.-~]. *)
Definition url_always_safe (c : ascii) : bool :=
  byte_in 65 90 c || byte_in 97 122 c || byte_in 48 57 c
  || bool_decide (c ∈ ["_"; "."; "-"; "~"]%char).

(** An upper-case hexadecimal digit. *)
Definition hex_digit (n : N) : ascii :=
  if (n <? 10)%N then ascii_of_N (48 + n) else ascii_of_N (55 + n).

(** [urllib.parse.quote_plus(value)]: a space becomes [+], a safe character
    stays, any other byte of the UTF-8 form becomes [%XX]. *)
Fixpoint quote_plus (s : string) : string :=
  match s with
  | EmptyString => EmptyString
  | String c t =>
      if bool_decide (c = " "%char) then String "+" (quote_plus t)
      else if url_always_safe c then String c (quote_plus t)
      else String "%" (String (hex_digit (N_of_ascii c / 16))
                         (String (hex_digit (N_of_ascii c mod 16)) (quote_plus t)))
  end.

(** The value of a hexadecimal digit, in either case. *)
Definition hex_value (c : ascii) : option N :=
  if byte_in 48 57 c then Some (N_of_ascii c - 48)%N
  else if byte_in 65 70 c then Some (N_of_ascii c - 55)%N
  else if byte_in 97 102 c then Some (N_of_ascii c - 87)%N
  else None.

(** The reader of a query string, [urllib.parse.unquote_plus]: [+] is a
    space, [%XX] is a byte, and a [%] not followed by two hexadecimal
    digits is kept. *)
Fixpoint unquote_plus (s : string) : string :=
  match s with
  | EmptyString => EmptyString
  | String c t =>
      if bool_decide (c = "+"%char) then String " " (unquote_plus t)
      else if bool_decide (c = "%"%char) then
        match t with
        | String h (String l t') =>
            match hex_value h, hex_value l with
            | Some x, Some y => String (ascii_of_N (16 * x + y)) (unquote_plus t')
            | _, _ => String c (unquote_plus t)
            end
        | _ => String c (unquote_plus t)
        end
      else String c (unquote_plus t)
  end.

(** What [update_url] can raise: [ValueError] from [int], [IndexError]
    from the registry. *)
Inductive url_exn : Type := UrlValueError | UrlIndexError.

(** One turn of the loop [for idx, value in values.items()] on the list
    [search].  The keys are the names [param0], [param1], ... under which
    the inputs are declared, so that [int] gets decimal digits. *)
Definition update_url_entry (registry : list string) (search : list string)
    (kv : string * pyany) : url_exn + list string :=
  let '(idx, value) := kv in
  match value with
  | PyNone => inr search
  | PyStr EmptyString => inr search
  | _ =>
      match PyStr.int (PyStr.replace "param" "" idx) with
      | Raise _ => inl UrlValueError
      | Ok idx =>
          let value := quote_plus (py_str value) in
          match registry !! Z.to_nat idx with
          | Some param => inr (search ++ [param +:+ "=" +:+ value])
          | None => inl UrlIndexError
          end
      end
  end.

(** [update_url] on the keyword arguments [values], for the registry of parameter names
    [_url_param_registry]; [None] stands for [no_update]. *)
Definition update_url (registry : list string) (values : list (string * pyany))
    : url_exn + option string :=
  match values with
  | [] => inr None
  | _ =>
      match foldl (λ acc kv, match acc with
                             | inr search => update_url_entry registry search kv
                             | inl e => inl e
                             end) (inr []) values with
      | inr search => inr (Some ("?" +:+ PyStr.join "&" search))
      | inl e => inl e
      end
  end.

(** The keyword under which [make_url_params_callback] declares input
    number [i]: [f"param{i}"]. *)
Definition url_input_key (i : nat) : string := "param" +:+ pretty i.

(** The two module-level registries: the names of the URL parameters and
    the ids of the inputs they are read from. *)
Record url_registry : Type := {
  _url_param_registry : list string;
  _url_inputs_registry : list string;
}.

(** The registries of a freshly imported module. *)
Definition url_registry_empty : url_registry :=
  {| _url_param_registry := []; _url_inputs_registry := [] |}.

(** [url_parameter], given pairs [(id_, param)]: each is appended,
    the parameter to one registry and the id to the other. *)
Definition url_parameter (input_params : list (string * string)) (reg : url_registry)
    : url_registry :=
  foldl (λ reg id_param,
           {| _url_param_registry := _url_param_registry reg ++ [id_param.2];
              _url_inputs_registry := _url_inputs_registry reg ++ [id_param.1] |})
        reg input_params.

(** The inputs [make_url_params_callback] declares, keyword and id:
    [{f"param{i}": Input(id_, "value") for i, id_ in enumerate(_url_inputs_registry)}]. *)
Definition url_inputs (reg : url_registry) : list (string * string) :=
  imap (λ i id_, (url_input_key i, id_)) (_url_inputs_registry reg).

(** ** components.py: the plot download button *)

(** [s.endswith(suffix)] *)
Fixpoint str_endswith (suffix s : string) : bool :=
  if String.eqb s suffix then true
  else match s with
       | EmptyString => false
       | String _ t => str_endswith suffix t
       end.

(** The dict the callback returns to the download component. *)
Record download : Type := {
  dl_content : string;
  dl_filename : string;
  dl_type : string;
  dl_base64 : bool;
}.

(** [fig.get("layout", {}).get(key, dflt)]: only a dict has [get]. *)
Definition layout_get (fig : json) (key : string) (dflt : json) : result json :=
  match fig with
  | JDict entries =>
      match default (JDict []) (dict_get "layout" entries) with
      | JDict layout => Ok (default dflt (dict_get key layout))
      | _ => Raise AttributeError
      end
  | _ => Raise AttributeError
  end.

(** [config[key] if key in config and config[key] is not None else
    fig.get("layout", {}).get(key, dflt)] *)
Definition config_or_layout (config : list (string * json)) (fig : json)
    (key : string) (dflt : json) : result json :=
  match dict_get key config with
  | Some JNull | None => layout_get fig key dflt
  | Some v => Ok v
  end.

Section PlotDownload.
Context (W : World).
(** plotly: the figure [pio.full_figure_for_development] builds, and the
    bytes [write_image] writes for a width and a height. *)
Context {Figure : Type}.
Context (full_figure_for_development : json → result Figure).
Context (write_image : Figure → json → json → result string).

(** The file name before the suffix is looked at. *)
Definition download_filename (config id_ : list (string * json)) : result string :=
  match dict_get "filename" config with
  | Some JNull | None =>
      match dict_get "id" id_ with
      | Some v => Ok ("export_" +:+ py_format W v +:+ ".pdf")
      | None => Raise KeyError
      end
  | Some (JStr filename) => Ok filename
  | Some _ => Raise AttributeError
  end.

(** [__plotdownloadbutton_callback(_, fig, config, id_)] *)
Definition __plotdownloadbutton_callback (fig : json) (config id_ : list (string * json))
    : M download :=
  let* width := lift (config_or_layout config fig "width" (JInt 700)) in
  let* height := lift (config_or_layout config fig "height" (JInt 500)) in
  let* fig := lift (full_figure_for_development fig) in
  let* _ := emit (EvSleep 2) in
  let* pdf := lift (write_image fig width height) in
  let* b64_data := lift (decode_utf8 (Base64.b64encode pdf)) in
  let* filename := lift (download_filename config id_) in
  let filename := if str_endswith ".pdf" filename then filename else filename +:+ ".pdf" in
  ret {| dl_content := b64_data; dl_filename := filename;
         dl_type := "application/pdf"; dl_base64 := true |}.

End PlotDownload.

(** * Vocabulary of the properties *)

(** Character-wise substitution: every [q] becomes [new]. *)
Fixpoint subst_char (q : ascii) (new : string) (s : string) : string :=
  match s with
  | EmptyString => EmptyString
  | String c t =>
      if bool_decide (c = q) then new +:+ subst_char q new t
      else String c (subst_char q new t)
  end.

(** The tokens one option contributes, as the specification words it. *)
Definition option_tokens (kv : string * pyany) : list string :=
  match kv.2 with
  | PyBool true => ["--" +:+ kv.1]
  | PyBool false => []
  | PyNone => []
  | v => ["--" +:+ kv.1 +:+ "='" +:+ subst_char "'" "\''" (py_str v) +:+ "'"]
  end.

(** [q in s] for a one-character [q] *)
Fixpoint has_char (q : ascii) (s : string) : bool :=
  match s with
  | EmptyString => false
  | String c t => bool_decide (c = q) || has_char q t
  end.

(** The details under [Done] on which a label can be read. *)
Definition labelled (entries : list (string * json)) : bool :=
  match entries, dict_get "Done" entries with
  | [], _ => false
  | _, None => true
  | _, Some (JStr _) => true
  | _, Some (JDict (_ :: _)) => true
  | _, Some _ => false
  end.

(** The arguments the sink is expected to get: after the i-th line, the
    first i lines put together. *)
Definition accumulated (lines : list string) : list string :=
  (λ i, String.concat "" (take (S i) lines)) <$> seq 0 (length lines).

(** The arguments of the sink calls recorded in a trace. *)
Definition progress_calls (t : trace) : list string :=
  omap (λ ev, match ev with EvProgress s => Some s | _ => None end) t.

(** The calls of [set_progress] recorded in a trace. *)
Definition set_progress_calls (t : trace) : list (string * list html) :=
  omap (λ ev, match ev with EvSetProgress title ui => Some (title, ui) | _ => None end) t.

(** The pauses recorded in a trace. *)
Definition sleeps (t : trace) : list Z :=
  omap (λ ev, match ev with EvSleep n => Some n | _ => None end) t.

(** The events of a remote execution. *)
Definition is_remote_event (ev : event) : bool :=
  match ev with
  | EvConnect _ _ _ | EvExecCommand _ | EvClose => true
  | _ => false
  end.

(** A computation that only talks to the remote host. *)
Definition remote_only {A} (m : M A) : Prop :=
  ∀ t r t', m t = (r, t') → ∃ d, t' = t ++ d ∧ forallb is_remote_event d = true.

(** The title passed to [set_progress] while the task is not finished. *)
Definition progress_title (W : World) (st : status_dict) : string :=
  "Task " +:+ py_format W (st_id st) +:+ " @ " +:+ py_format W (st_group st) +:+ "...".

(** The title of the outputs returned at the end. *)
Definition final_title (W : World) (st : status_dict) : string :=
  "Task " +:+ py_format W (st_id st) +:+ " @" +:+ py_format W (st_group st).

(** A run of status queries as the live loop makes them: the observations
    [obs] carry labels that are not terminal, each followed by one progress
    call and one pause; the last one carries a terminal label. *)
Inductive polled (W : World) (task_id : string) (full : bool)
  : trace → list (status_dict * list html) → status_dict * list html → trace → Prop :=
  | polled_done t s t' label :
      __pueue_status W task_id full t = (Ok s, t') →
      st_status s.1 = JStr label →
      label ∈ terminal_states →
      polled W task_id full t [] s t'
  | polled_more t s t' label obs final t'' :
      __pueue_status W task_id full t = (Ok s, t') →
      st_status s.1 = JStr label →
      label ∉ terminal_states →
      polled W task_id full (t' ++ [EvSetProgress (progress_title W s.1) s.2; EvSleep 5])
        obs final t'' →
      polled W task_id full t (s :: obs) final t''.

(** Evaluates the left-hand side of an equation and closes it. *)
Ltac by_evaluation :=
  lazymatch goal with
  | |- ?lhs = _ => let v := eval vm_compute in lhs in change lhs with v; reflexivity
  end.

(** Every byte is below 128. *)
Fixpoint all_ascii (s : string) : bool :=
  match s with
  | EmptyString => true
  | String c t => byte_in 0 127 c && all_ascii t
  end.

(** The decimal digits of a text, in order, and the number they write. *)
Fixpoint digits_of (s : string) : list nat :=
  match s with
  | EmptyString => []
  | String c t =>
      match Ascii.is_nat c with
      | Some d => d :: digits_of t
      | None => digits_of t
      end
  end.

(** The number a list of decimal digits writes, first digit first. *)
Fixpoint decimal_value (ds : list nat) : Z :=
  match ds with
  | [] => 0
  | d :: rest => Z.of_nat d * 10 ^ Z.of_nat (length rest) + decimal_value rest
  end.

(** Decides the comparisons between concrete characters in the goal. *)
Ltac compare_chars := repeat (case_bool_decide; try done).

(** ** Vocabulary of the further properties *)

(** A character a shell reads as itself outside quotes. *)
Definition sh_plain (c : ascii) : bool :=
  negb (bool_decide (c = "'"%char) || bool_decide (c = "\"%char)
        || sh_blank c || sh_special c).

(** A word of plain characters, not empty. *)
Fixpoint sh_plain_word (w : string) : bool :=
  match w with
  | EmptyString => false
  | String c EmptyString => sh_plain c
  | String c t => sh_plain c && sh_plain_word t
  end.

(** Every character of a text is plain (the text may be empty). *)
Fixpoint sh_plain_text (w : string) : bool :=
  match w with
  | EmptyString => true
  | String c t => sh_plain c && sh_plain_text t
  end.

(** The arguments a shell is expected to read for one option. *)
Definition option_arguments (kv : string * pyany) : list string :=
  match kv.2 with
  | PyBool true => ["--" +:+ kv.1]
  | PyBool false => []
  | PyNone => []
  | v => ["--" +:+ kv.1 +:+ "=" +:+ subst_char "'" "\" (py_str v)]
  end.

(** A token is read as the word [r], whatever follows it. *)
Definition reads_as (token r : string) : Prop :=
  ∀ rest, sh_lex ShUnquoted None (token +:+ rest) = sh_lex ShUnquoted (Some r) rest.

(** Closes the case of a remote execution that raised: the events made so
    far hold no [EvClose]. *)
Ltac session_left_open :=
  split_and!;
  [ by rewrite ?app_nil_r, <-?(assoc_L (++))
  | split; [|done];
    let Hin := fresh "Hin" in
    intros Hin; repeat (apply elem_of_cons in Hin as [[=]|Hin]); by apply elem_of_nil in Hin
  | cbn; lia
  | done
  | done ].

(** A text of characters that are never escaped, [+] and [%]: no [&], [=],
    [#], [?] or space is among them. *)
Fixpoint url_quoted (s : string) : bool :=
  match s with
  | EmptyString => true
  | String c t =>
      (url_always_safe c || bool_decide (c = "+"%char) || bool_decide (c = "%"%char))
      && url_quoted t
  end.

(** The values [update_url] writes an entry for: all but [None] and the
    empty string. *)
Definition url_value_given (value : pyany) : bool :=
  match value with
  | PyNone | PyStr EmptyString => false
  | _ => true
  end.

(** ** The block style of YAML for a flat mapping of scalars

    The YAML library is not part of the repository.  Modelled from the
    library's emitter and resolver: the text [yaml.dump] writes, with its
    default settings (block style, sorted keys, ASCII output, width 80), for
    a mapping from names to scalars (null, booleans, integers, texts), where
    every entry is one line [key: value] of at most 80 columns, and [{}] for
    the empty mapping.  A text is written plain where a reader takes the
    plain form for that same text; otherwise between single quotes where it
    holds printable ASCII characters only, and between double quotes, with
    escapes, where it holds a character that is neither printable ASCII nor
    the newline.  What the library writes over several lines (an entry
    wider than 80 columns, a text of printable characters and newlines, a
    key that is empty or holds a line break) has no form here, nor has a
    value of another type (a float, a list).  [yaml_read] is the reader of
    that style: it reads a document of such lines and nothing else. *)

(** Every character of [s] satisfies [p]. *)
Fixpoint str_all (p : ascii → bool) (s : string) : bool :=
  match s with
  | EmptyString => true
  | String c t => p c && str_all p t
  end.












(** A decimal number without leading zeros, and the integer it writes. *)
Definition decimal_digits (s : string) : bool :=
  match s with
  | EmptyString => false
  | String c t =>
      if bool_decide (c = "0"%char) then bool_decide (t = EmptyString)
      else byte_in 49 57 c && str_all (byte_in 48 57) t
  end.



(** The characters written as they are. *)
Definition yaml_printable : ascii → bool := byte_in 32 126.




















(** *** The reader *)













(** * Properties *)

(** ** Strings *)

Lemma app_cons c s t : String c s +:+ t = String c (s +:+ t).
Proof. reflexivity. Qed.

Lemma app_empty_l s : "" +:+ s = s.
Proof. reflexivity. Qed.

Lemma app_empty_r s : s +:+ "" = s.
Proof. induction s as [|c s IH]; [done|]. by rewrite app_cons, IH. Qed.

Lemma app_assoc_str s t u : (s +:+ t) +:+ u = s +:+ (t +:+ u).
Proof. induction s as [|c s IH]; [done|]. by rewrite !app_cons, IH. Qed.

Lemma prefix_empty s : String.prefix "" s = true.
Proof. by destruct s. Qed.

Lemma prefix_one q c t :
  String.prefix (String q "") (String c t) = bool_decide (c = q).
Proof.
  simpl. destruct (ascii_dec q c) as [->|Hne].
  - by rewrite prefix_empty, bool_decide_eq_true_2.
  - by rewrite bool_decide_eq_false_2.
Qed.

(** Replacing a one-character pattern is a character-wise substitution. *)
Lemma replace_one_char q new s :
  PyStr.replace (String q "") new s = subst_char q new s.
Proof.
  unfold PyStr.replace. induction s as [|c t IH]; [done|].
  cbn [PyStr.replace_from subst_char]. rewrite prefix_one.
  case_bool_decide; cbn [String.length Nat.pred]; by rewrite IH.
Qed.

(** ** Command formatting *)

Lemma shell_escape_subst v :
  shell_escape v = "'" +:+ subst_char "'" "\''" (py_str v) +:+ "'".
Proof. unfold shell_escape. by rewrite replace_one_char. Qed.

Lemma resolve_option_tokens acc kv :
  resolve_option acc kv = acc ++ option_tokens kv.
Proof.
  destruct kv as [k v]. unfold option_tokens; cbn [fst snd resolve_option].
  destruct v as [|[]| | |]; rewrite ?app_nil_r, ?shell_escape_subst; try done.
Qed.

Lemma foldl_resolve_option opts acc :
  foldl resolve_option acc opts = acc ++ concat (option_tokens <$> opts).
Proof.
  revert acc. induction opts as [|kv opts IH]; intros acc; cbn.
  - by rewrite app_nil_r.
  - by rewrite IH, resolve_option_tokens, <-(assoc_L (++)).
Qed.

(** C5. For a (base, options) command the resolver answers the base token
    followed, option by option and in order, by: the bare token [--name]
    for a true boolean; nothing for a false boolean or for [None]; and for
    any other value the single token [--name='...'] holding the string
    form of the value with each single quote replaced by the three
    characters backslash, quote, quote; the tokens are joined by single
    spaces. *)
Theorem resolve_cmd_tuple_tokens (base : string) (options : list (string * pyany)) :
  resolve_cmd (CmdTuple base options)
  = Ok (PyStr.join " " (base :: concat (option_tokens <$> options))).
Proof. cbn [resolve_cmd]. by rewrite foldl_resolve_option. Qed.

(** ** Shell escaping read back by a shell *)

Lemma sh_lex_single_quoted (s w : string) :
  sh_lex ShSingle (Some w) (subst_char "'" "\''" s +:+ "'")
  = Some [w +:+ subst_char "'" "\" s].
Proof.
  revert w. induction s as [|c t IH]; intros w.
  - cbn. by rewrite app_empty_r.
  - cbn [subst_char]. case_bool_decide as Hc.
    + subst c. rewrite !app_cons, app_empty_l. cbn [sh_lex]. compare_chars.
      unfold sh_push, sh_open. cbn [default]. rewrite IH. unfold id.
      by rewrite ?app_assoc_str, ?app_cons, ?app_empty_l.
    + rewrite app_cons. cbn [sh_lex]. rewrite bool_decide_eq_false_2 by done.
      unfold sh_push. cbn [default]. rewrite IH. unfold id.
      by rewrite ?app_assoc_str, ?app_cons, ?app_empty_l.
Qed.

(** What a shell reads from an escaped value: one word, the string form of
    the value with every single quote turned into a backslash. *)
Lemma sh_words_shell_escape (v : pyany) :
  sh_words (shell_escape v) = Some [subst_char "'" "\" (py_str v)].
Proof.
  rewrite shell_escape_subst. unfold sh_words. rewrite app_cons, app_empty_l.
  cbn [sh_lex]. compare_chars.
  unfold sh_open. cbn [default]. unfold id. by rewrite sh_lex_single_quoted.
Qed.

Lemma subst_char_absent q new s : has_char q s = false → subst_char q new s = s.
Proof.
  induction s as [|c t IH]; [done|]. cbn. intros [Hc Ht]%orb_false_iff.
  rewrite Hc. by rewrite IH.
Qed.

Lemma subst_quote_present s :
  has_char "'" s = true → subst_char "'" "\" s ≠ s.
Proof.
  induction s as [|c t IH]; [done|]. cbn. case_bool_decide as Hc; cbn.
  - intros _. subst c. by rewrite app_cons.
  - intros Ht [= E]. by apply IH.
Qed.

(** Reading an escaped value back gives the value exactly when it holds no
    single quote. *)
Lemma shell_escape_roundtrip_iff (v : pyany) :
  sh_words (shell_escape v) = Some [py_str v] ↔ has_char "'" (py_str v) = false.
Proof.
  rewrite sh_words_shell_escape. split.
  - intros [= E]. destruct (has_char "'" (py_str v)) eqn:Hq; [|done].
    by apply subst_quote_present in Hq.
  - intros Hq. by rewrite subst_char_absent.
Qed.

(** C6, at the value [a'b]: the escaped form is ['a\''b'], which a shell
    reads as the one word [a\b]; the quote of the value is lost and the
    value is not read back. *)
Theorem shell_escape_quote_not_read_back :
  shell_escape (PyStr "a'b") = "'a\''b'"
  ∧ sh_words (shell_escape (PyStr "a'b")) = Some ["a\b"]
  ∧ sh_words (shell_escape (PyStr "a'b")) ≠ Some ["a'b"].
Proof. split_and!; [done| by vm_compute | by vm_compute]. Qed.

(** ** Status normalisation *)

(** C1, as stated: a mapping with the one key [Done] whose detail is a
    number; the function returns the number, which is not a string label. *)
Lemma simplify_done_number_not_label :
  simplify_pueue_status (JDict [("Done", JInt 127)]) = Ok (JInt 127)
  ∧ ¬ ∃ label, simplify_pueue_status (JDict [("Done", JInt 127)]) = Ok (JStr label).
Proof. split; [done|]. by intros [label Hl]. Qed.

(** C1, amended.  A plain string is returned unchanged; a mapping with the
    one key [Done] whose detail is a string or a mapping that is not empty
    gives the label of its detail, that is the inner string, or the first
    key of the inner mapping; a mapping with any other single key gives
    that key.  The result is a string label in each case. *)
Theorem simplify_pueue_status_label :
  (∀ s, simplify_pueue_status (JStr s) = Ok (JStr s))
  ∧ (∀ s, simplify_pueue_status (JDict [("Done", JStr s)]) = Ok (JStr s))
  ∧ (∀ k v rest,
       simplify_pueue_status (JDict [("Done", JDict ((k, v) :: rest))]) = Ok (JStr k))
  ∧ (∀ k v, k ≠ "Done" → simplify_pueue_status (JDict [(k, v)]) = Ok (JStr k))
  ∧ simplify_pueue_status (JDict [("Done", JStr "Success")]) = Ok (JStr "Success")
  ∧ simplify_pueue_status (JDict [("Done", JDict [("Failed", JInt 127)])]) = Ok (JStr "Failed")
  ∧ simplify_pueue_status (JStr "Running") = Ok (JStr "Running").
Proof.
  split_and!; try done.
  intros k v Hk. cbn. by rewrite bool_decide_eq_false_2.
Qed.

Lemma simplify_pueue_status_label_witness :
  simplify_pueue_status (JDict [("Stashed", JDict [("enqueue_at", JNull)])])
  = Ok (JStr "Stashed").
Proof.
  destruct simplify_pueue_status_label as (_ & _ & _ & H & _).
  by apply H.
Defined.

Lemma simplify_dict_label_iff (entries : list (string * json)) :
  (∃ label, simplify_pueue_status (JDict entries) = Ok (JStr label))
  ↔ labelled entries = true.
Proof.
  unfold labelled. cbn [simplify_pueue_status].
  destruct entries as [|[k v] rest].
  - cbn. split; [by intros [? ?]|done].
  - destruct (dict_get "Done" ((k, v) :: rest)) as [[| | | | |[|[??]?]]|] eqn:E;
      cbn; split; try done; try (by intros [? ?]); eauto.
Qed.

(** C10, as stated: a mapping that is not empty on which no label is
    returned; the function raises on it. *)
Lemma simplify_nonempty_mapping_raises :
  [("Done", JDict [])] ≠ []
  ∧ simplify_pueue_status (JDict [("Done", JDict [])]) = Raise StopIteration
  ∧ ¬ (∀ entries, entries ≠ [] →
         ∃ label, simplify_pueue_status (JDict entries) = Ok (JStr label)).
Proof.
  split_and!; [done|done|].
  intros H. destruct (H [("Done", JDict [])]) as [label Hl]; done.
Qed.

(** C10, amended.  The function returns a string label on every string, and
    on a mapping exactly when the mapping is not empty and its [Done]
    entry, if it has one, is a string or a mapping that is not empty; on
    the empty mapping it raises [StopIteration]. *)
Theorem simplify_pueue_status_total_on :
  (∀ s, ∃ label, simplify_pueue_status (JStr s) = Ok (JStr label))
  ∧ (∀ entries, entries ≠ [] →
       (dict_get "Done" entries = None
        ∨ (∃ s, dict_get "Done" entries = Some (JStr s))
        ∨ (∃ kv inner, dict_get "Done" entries = Some (JDict (kv :: inner)))) →
       ∃ label, simplify_pueue_status (JDict entries) = Ok (JStr label))
  ∧ (∀ entries label, simplify_pueue_status (JDict entries) = Ok (JStr label) →
       entries ≠ []
       ∧ (dict_get "Done" entries = None
          ∨ (∃ s, dict_get "Done" entries = Some (JStr s))
          ∨ (∃ kv inner, dict_get "Done" entries = Some (JDict (kv :: inner)))))
  ∧ simplify_pueue_status (JDict []) = Raise StopIteration.
Proof.
  split_and!; [by eauto| | |done].
  - intros entries Hne Hdone. apply simplify_dict_label_iff. unfold labelled.
    destruct entries as [|e rest]; [done|].
    destruct Hdone as [->|[[s ->]|(kv & inner & ->)]]; done.
  - intros entries label Hl.
    assert (labelled entries = true) as Hlab by (apply simplify_dict_label_iff; eauto).
    unfold labelled in Hlab. destruct entries as [|e rest]; [done|]. split; [done|].
    destruct (dict_get "Done" (e :: rest)) as [[| | | |?|[|??]]|]; try done; eauto.
Qed.

Lemma simplify_pueue_status_total_on_witness :
  ∃ label,
    simplify_pueue_status (JDict [("Done", JDict [("Failed", JInt 127)])])
    = Ok (JStr label).
Proof.
  destruct simplify_pueue_status_total_on as (_ & H & _).
  apply H; [done|]. right; right. by eexists _, _.
Defined.

(** ** Queue submission *)

Lemma elem_of_available_tasks (task : string) :
  task ∈ available_tasks ↔ task = "train" ∨ task = "inference" ∨ task = "create".
Proof.
  unfold available_tasks.
  rewrite !elem_of_union, !elem_of_singleton. tauto.
Qed.

(** C4. With a group other than train, inference and create, the
    submission raises [ValueError] and the trace of outside calls is the one
    it started with: nothing was connected to, nothing was executed. *)
Theorem queue_unknown_group (W : World) (cmd : CMDType) (task : string)
    (user host : option string) (t : trace) :
  task ≠ "train" → task ≠ "inference" → task ≠ "create" →
  queue W cmd task user host t = (Raise ValueError, t).
Proof.
  intros H1 H2 H3. unfold queue.
  rewrite bool_decide_eq_false_2; [done|].
  rewrite elem_of_available_tasks. tauto.
Qed.

Lemma queue_unknown_group_witness :
  queue (scripted_world ["New task added (id 0)."] [] task7_loads plain_yaml_dump)
    (CmdStr "python train.py") "deploy" None None []
  = (Raise ValueError, []).
Proof. by apply queue_unknown_group. Defined.

Lemma int_digits_filter (s : string) (acc : Z) :
  PyStr.int_digits acc (PyStr.filter PyStr.in_digits s)
  = Some (acc * 10 ^ Z.of_nat (length (digits_of s)) + decimal_value (digits_of s)).
Proof.
  revert acc. induction s as [|c t IH]; intros acc.
  - cbn. f_equal. lia.
  - cbn [PyStr.filter digits_of]. unfold PyStr.in_digits.
    destruct (Ascii.is_nat c) as [d|] eqn:Hd; [|apply IH].
    cbn [PyStr.int_digits]. rewrite Hd, IH. f_equal.
    cbn [length decimal_value]. rewrite Nat2Z.inj_succ, Z.pow_succ_r by lia. lia.
Qed.

Lemma filter_digits_empty (s : string) :
  PyStr.filter PyStr.in_digits s = "" ↔ digits_of s = [].
Proof.
  induction s as [|c t IH]; [done|]. cbn. unfold PyStr.in_digits.
  by destruct (Ascii.is_nat c).
Qed.

(** [int] of the filtered text: the number its digits write, or
    [ValueError] when it has none. *)
Lemma int_filter_digits (s : string) :
  PyStr.int (PyStr.filter PyStr.in_digits s)
  = match digits_of s with
    | [] => Raise ValueError
    | ds => Ok (decimal_value ds)
    end.
Proof.
  unfold PyStr.int. pose proof (filter_digits_empty s) as He.
  pose proof (int_digits_filter s 0) as Hi.
  destruct (PyStr.filter PyStr.in_digits s) as [|c r] eqn:Hf.
  - by rewrite (proj1 He).
  - rewrite Hi. destruct (digits_of s) as [|d ds].
    + destruct He as [_ He]. by specialize (He eq_refl).
    + f_equal; lia.
Qed.

(** What [queue] does with the text the queue-add invocation answered. *)
Lemma queue_after_execute (W : World) cmd c task user host t ack t' :
  task ∈ available_tasks →
  resolve_cmd cmd = Ok c →
  execute W (CmdStr ("./pueue add -g " +:+ task +:+ " -- " +:+ c)) user host false false t
  = (Ok ack, t') →
  queue W cmd task user host t
  = (if PyStr.contains "New task added" ack
     then match digits_of ack with
          | [] => Raise ValueError
          | ds => Ok (decimal_value ds)
          end
     else Raise RuntimeError, t').
Proof.
  intros Htask Hc Hex. unfold queue. rewrite bool_decide_eq_true_2 by done.
  unfold bind at 1, lift at 1. rewrite Hc. unfold bind at 1. rewrite Hex.
  destruct (PyStr.contains "New task added" ack); [|done].
  unfold lift. by rewrite int_filter_digits.
Qed.

Lemma prefix_app (s t : string) : String.prefix s (s +:+ t) = true.
Proof.
  induction s as [|c s IH]; [apply prefix_empty|].
  rewrite app_cons. cbn. by destruct (ascii_dec c c).
Qed.

Lemma contains_app (needle pre post : string) :
  PyStr.contains needle (pre +:+ needle +:+ post) = true.
Proof.
  induction pre as [|c pre IH].
  - rewrite app_empty_l.
    destruct (needle +:+ post) eqn:E; cbn [PyStr.contains]; rewrite <-E, prefix_app; done.
  - rewrite app_cons. cbn [PyStr.contains]. rewrite IH.
    by destruct (String.prefix _ _).
Qed.

Lemma digits_of_app (s t : string) : digits_of (s +:+ t) = digits_of s ++ digits_of t.
Proof.
  induction s as [|c s IH]; [done|]. rewrite app_cons. cbn.
  destruct (Ascii.is_nat c); by rewrite IH.
Qed.

(** C3, as stated: the queue-add invocation answers the confirmation phrase
    and nothing else; the phrase is there, and the submission raises
    [ValueError] instead of returning an id. *)
Lemma queue_phrase_without_digit :
  ∃ t',
    execute (scripted_world ["New task added"] [] task7_loads plain_yaml_dump)
      (CmdStr "./pueue add -g train -- ls") None None false false []
    = (Ok "New task added", t')
    ∧ PyStr.contains "New task added" "New task added" = true
    ∧ queue (scripted_world ["New task added"] [] task7_loads plain_yaml_dump)
        (CmdStr "ls") "train" None None []
      = (Raise ValueError, t')
    ∧ ¬ ∃ n : Z,
          queue (scripted_world ["New task added"] [] task7_loads plain_yaml_dump)
            (CmdStr "ls") "train" None None []
          = (Ok n, t').
Proof.
  eexists. split_and!; [by vm_compute|by vm_compute|by vm_compute|].
  intros [n Hn]. vm_compute in Hn. discriminate Hn.
Qed.

(** C3, amended.  For the text the queue-add invocation answered: the
    submission returns an integer exactly when the text holds the phrase
    [New task added] and at least one digit, and the integer is then the
    number written by the digits of the text; a text holding
    [New task added 42.] and no other digit gives 42; without the phrase
    the submission raises [RuntimeError]. *)
Theorem queue_task_id_iff (W : World) (cmd : CMDType) (c task : string)
    (user host : option string) (t t' : trace) (ack : string) :
  task ∈ available_tasks →
  resolve_cmd cmd = Ok c →
  execute W (CmdStr ("./pueue add -g " +:+ task +:+ " -- " +:+ c)) user host false false t
  = (Ok ack, t') →
  (∀ n, queue W cmd task user host t = (Ok n, t')
        ↔ PyStr.contains "New task added" ack = true
          ∧ digits_of ack ≠ []
          ∧ n = decimal_value (digits_of ack))
  ∧ (∀ pre post, ack = pre +:+ "New task added 42." +:+ post →
       digits_of pre = [] → digits_of post = [] →
       queue W cmd task user host t = (Ok 42, t'))
  ∧ (PyStr.contains "New task added" ack = false →
     queue W cmd task user host t = (Raise RuntimeError, t')).
Proof.
  intros Htask Hc Hex. rewrite (queue_after_execute W cmd c task user host t ack t') by done.
  split_and!.
  - intros n. destruct (PyStr.contains "New task added" ack).
    + destruct (digits_of ack) as [|d ds].
      * split; [done|]. by intros (_ & Hne & _).
      * split; [intros [= <-]; done|intros (_ & _ & ->); done].
    + split; [done|]. by intros (Hf & _).
  - intros pre post -> Hpre Hpost.
    change (pre +:+ "New task added 42." +:+ post)
      with (pre +:+ "New task added" +:+ (" 42." +:+ post)) at 1.
    rewrite contains_app, !digits_of_app, Hpre, Hpost. done.
  - by intros ->.
Qed.

Lemma queue_task_id_iff_witness :
  queue (scripted_world ["New task added (id 42)."] [] task7_loads plain_yaml_dump)
    (CmdStr "python train.py") "train" None None []
  = (Ok 42,
     [EvConnect "192.168.0.94" "task_runner" "/root/.ssh/id_ed25519.pub";
      EvExecCommand "./pueue add -g train -- python train.py"; EvClose]).
Proof.
  set (W := scripted_world ["New task added (id 42)."] [] task7_loads plain_yaml_dump).
  set (t' := [EvConnect "192.168.0.94" "task_runner" "/root/.ssh/id_ed25519.pub";
              EvExecCommand "./pueue add -g train -- python train.py"; EvClose]).
  assert ("train" ∈ available_tasks) as Htask
    by (apply elem_of_available_tasks; by left).
  assert (execute W (CmdStr ("./pueue add -g " +:+ "train" +:+ " -- " +:+ "python train.py"))
            None None false false [] = (Ok "New task added (id 42).", t')) as Hex
    by (vm_compute; reflexivity).
  destruct (queue_task_id_iff W (CmdStr "python train.py") "python train.py" "train"
              None None [] t' "New task added (id 42)." Htask eq_refl Hex) as (Hiff & _ & _).
  apply Hiff. split_and!; by vm_compute.
Defined.

(** C9.  When the answered text holds the phrase, the submission returns
    the number written by all the digits of the text, wherever they stand
    (and raises [ValueError] when there is none); so on a text that has
    digits besides the task number, here an echoed option, the number
    returned is not the task number. *)
Theorem queue_id_from_all_digits :
  (∀ (W : World) cmd c task user host t t' ack,
     task ∈ available_tasks →
     resolve_cmd cmd = Ok c →
     execute W (CmdStr ("./pueue add -g " +:+ task +:+ " -- " +:+ c)) user host false false t
     = (Ok ack, t') →
     PyStr.contains "New task added" ack = true →
     queue W cmd task user host t
     = (match digits_of ack with
        | [] => Raise ValueError
        | ds => Ok (decimal_value ds)
        end, t'))
  ∧ (∃ t',
       PyStr.contains "New task added (id 42)"
         "New task added (id 42): python train.py --epochs=10" = true
       ∧ queue (scripted_world ["New task added (id 42): python train.py --epochs=10"] []
                  task7_loads plain_yaml_dump)
           (CmdStr "python train.py --epochs=10") "train" None None []
         = (Ok 4210, t')).
Proof.
  split.
  - intros W cmd c task user host t t' ack Htask Hc Hex Hphrase.
    rewrite (queue_after_execute W cmd c task user host t ack t') by done.
    by rewrite Hphrase.
  - eexists. split; by vm_compute.
Qed.

Lemma queue_id_from_all_digits_witness :
  queue (scripted_world ["Task 3 done. New task added (id 5)."] [] task7_loads plain_yaml_dump)
    (CmdStr "ls") "create" None None []
  = (Ok 35,
     [EvConnect "192.168.0.94" "task_runner" "/root/.ssh/id_ed25519.pub";
      EvExecCommand "./pueue add -g create -- ls"; EvClose]).
Proof.
  set (W := scripted_world ["Task 3 done. New task added (id 5)."] [] task7_loads plain_yaml_dump).
  set (t' := [EvConnect "192.168.0.94" "task_runner" "/root/.ssh/id_ed25519.pub";
              EvExecCommand "./pueue add -g create -- ls"; EvClose]).
  assert ("create" ∈ available_tasks) as Htask
    by (apply elem_of_available_tasks; by right; right).
  assert (execute W (CmdStr ("./pueue add -g " +:+ "create" +:+ " -- " +:+ "ls"))
            None None false false [] = (Ok "Task 3 done. New task added (id 5).", t')) as Hex
    by (vm_compute; reflexivity).
  destruct queue_id_from_all_digits as [H _].
  rewrite (H W (CmdStr "ls") "ls" "create" None None [] t'
             "Task 3 done. New task added (id 5)." Htask eq_refl Hex); by vm_compute.
Defined.

(** ** Local execution with a progress sink *)

Lemma concat_cons (x : string) (xs : list string) :
  String.concat "" (x :: xs) = x +:+ String.concat "" xs.
Proof. destruct xs; cbn; [by rewrite app_empty_r|done]. Qed.

Lemma concat_app (xs ys : list string) :
  String.concat "" (xs ++ ys) = String.concat "" xs +:+ String.concat "" ys.
Proof.
  induction xs as [|x xs IH]; [done|].
  rewrite <-app_comm_cons, !concat_cons, IH. by rewrite app_assoc_str.
Qed.

Lemma concat_take_prefix (lines : list string) (i j : nat) :
  (i ≤ j)%nat →
  String.prefix (String.concat "" (take i lines)) (String.concat "" (take j lines)) = true.
Proof.
  intros Hij. replace j with (i + (j - i))%nat by lia.
  rewrite <-take_take_drop, concat_app. apply prefix_app.
Qed.

(** The loop on decodable lines: every line is added to the buffer and the
    sink gets the buffer each time. *)
Lemma read_stdout_decodable (lines : list string) (acc : string) (t : trace) :
  Forall (λ line, valid_utf8 line = true) lines →
  read_stdout true acc lines t
  = (Ok (acc +:+ String.concat "" lines),
     t ++ (EvProgress <$> ((λ i, acc +:+ String.concat "" (take (S i) lines))
                             <$> seq 0 (length lines)))).
Proof.
  intros Hvalid. revert acc t.
  induction Hvalid as [|line rest Hline _ IH]; intros acc t.
  - cbn. by rewrite app_empty_r, app_nil_r.
  - cbn [read_stdout]. unfold bind at 1, lift at 1, decode_utf8. rewrite Hline.
    unfold bind at 1, emit at 1. rewrite IH.
    rewrite concat_cons, app_assoc_str. f_equal.
    cbn [length seq fmap list_fmap]. rewrite <-(assoc_L (++)). cbn [app].
    do 3 f_equal.
    rewrite <-fmap_S_seq, <-list_fmap_compose.
    apply list_fmap_ext. intros i n _. cbn [compose].
    by rewrite firstn_cons, concat_cons, app_assoc_str.
Qed.

Lemma progress_calls_app (t u : trace) :
  progress_calls (t ++ u) = progress_calls t ++ progress_calls u.
Proof. apply omap_app. Qed.

Lemma progress_calls_fmap (calls : list string) :
  progress_calls (EvProgress <$> calls) = calls.
Proof.
  unfold progress_calls. induction calls as [|c calls IH]; [done|].
  cbn. by f_equal.
Qed.

Lemma accumulated_lookup (lines : list string) (i : nat) :
  (i < length lines)%nat →
  accumulated lines !! i = Some (String.concat "" (take (S i) lines)).
Proof.
  intros Hi. unfold accumulated. rewrite list_lookup_fmap, lookup_seq_lt by done.
  done.
Qed.

Lemma accumulated_length (lines : list string) :
  length (accumulated lines) = length lines.
Proof. unfold accumulated. by rewrite length_fmap, length_seq. Qed.

(** A line that does not decode stops the loop with the exception; the sink
    has been called for the lines before it and for no other. *)
Lemma read_stdout_undecodable (good : list string) (bad : string) (rest : list string)
    (acc : string) (t : trace) :
  Forall (λ line, valid_utf8 line = true) good →
  valid_utf8 bad = false →
  read_stdout true acc (good ++ bad :: rest) t
  = (Raise UnicodeDecodeError,
     t ++ (EvProgress <$> ((λ i, acc +:+ String.concat "" (take (S i) good))
                             <$> seq 0 (length good)))).
Proof.
  intros Hgood Hbad. revert acc t.
  induction Hgood as [|line good Hline _ IH]; intros acc t.
  - cbn [app read_stdout]. unfold bind, lift, decode_utf8. rewrite Hbad.
    cbn. by rewrite app_nil_r.
  - rewrite <-app_comm_cons. cbn [read_stdout].
    unfold bind at 1, lift at 1, decode_utf8. rewrite Hline.
    unfold bind at 1, emit at 1. rewrite IH. f_equal.
    cbn [length seq fmap list_fmap]. rewrite <-(assoc_L (++)). cbn [app].
    do 3 f_equal.
    rewrite <-fmap_S_seq, <-list_fmap_compose.
    apply list_fmap_ext. intros i n _. cbn [compose].
    by rewrite firstn_cons, concat_cons, app_assoc_str.
Qed.

Lemma accumulated_lookup_Some (lines : list string) (i : nat) (a : string) :
  accumulated lines !! i = Some a →
  (i < length lines)%nat ∧ a = String.concat "" (take (S i) lines).
Proof.
  intros Ha.
  assert (i < length lines)%nat as Hi
    by (rewrite <-accumulated_length; by eapply lookup_lt_Some).
  rewrite accumulated_lookup in Ha by done. by injection Ha as <-.
Qed.

Lemma accumulated_growing (lines : list string) (i j : nat) (a b : string) :
  (i ≤ j)%nat →
  accumulated lines !! i = Some a → accumulated lines !! j = Some b →
  String.prefix a b = true.
Proof.
  intros Hij [_ ->]%accumulated_lookup_Some [_ ->]%accumulated_lookup_Some.
  apply concat_take_prefix. lia.
Qed.

Lemma accumulated_last (lines : list string) :
  lines ≠ [] → last (accumulated lines) = Some (String.concat "" lines).
Proof.
  intros Hne. rewrite last_lookup, accumulated_length.
  destruct lines as [|l ls]; [done|]. cbn [length Nat.pred].
  rewrite accumulated_lookup by (cbn; lia).
  by rewrite take_ge by (cbn; lia).
Qed.

(** Either every line decodes, or there is a first line that does not. *)
Lemma decodable_split (lines : list string) :
  Forall (λ line, valid_utf8 line = true) lines
  ∨ ∃ good bad rest,
      lines = good ++ bad :: rest
      ∧ Forall (λ line, valid_utf8 line = true) good
      ∧ valid_utf8 bad = false.
Proof.
  induction lines as [|line lines IH]; [by left|].
  destruct (valid_utf8 line) eqn:Hline.
  - destruct IH as [Hall|(good & bad & rest & -> & Hgood & Hbad)].
    + left. by constructor.
    + right. exists (line :: good), bad, rest. split_and!; [done| |done].
      by constructor.
  - right. by exists [], line, lines.
Qed.

Lemma execute_local_unfold (W : World) cmd user host progress t lines :
  popen W (t ++ [EvPopen cmd]) cmd = Ok lines →
  execute W cmd user host progress true t
  = read_stdout progress "" lines (t ++ [EvPopen cmd]).
Proof.
  intros Hpopen. unfold execute. unfold bind at 1, emit at 1.
  unfold bind at 1, ask at 1. by rewrite Hpopen.
Qed.

(** C7, as stated: a process that writes a first line of text and a second
    line that is not UTF-8.  The sink is called once, for the first line;
    the second line raises the decoding error: no call follows it and no
    value is returned. *)
Lemma execute_local_undecodable_line :
  execute (scripted_world [] ["ok" +:+ nl; undecodable_line] task7_loads plain_yaml_dump)
    (CmdStr "cat report") None None true true []
  = (Raise UnicodeDecodeError, [EvPopen (CmdStr "cat report"); EvProgress ("ok" +:+ nl)]).
Proof. by vm_compute. Qed.

(** C7, amended.  In local mode with a sink, for whatever lines the process
    writes.  When every line decodes as UTF-8, the call returns the whole
    output, and the sink has been called exactly once per line, in order,
    the i-th time with the first i lines put together; its last argument,
    when there was a line, is the value returned.  When a line does not
    decode, the decoding error is raised and nothing is returned: the sink
    has been called exactly for the lines before the first such line, again
    with the output accumulated so far, and for no other.  In both cases
    each argument of the sink is a prefix of every later one, and one of the
    two cases always applies. *)
Theorem execute_local_progress (W : World) (cmd : CMDType) (user host : option string)
    (t : trace) (lines : list string) :
  popen W (t ++ [EvPopen cmd]) cmd = Ok lines →
  (Forall (λ line, valid_utf8 line = true) lines →
     execute W cmd user host true true t
     = (Ok (String.concat "" lines), t ++ EvPopen cmd :: (EvProgress <$> accumulated lines))
     ∧ (lines ≠ [] → last (accumulated lines) = Some (String.concat "" lines)))
  ∧ (∀ good bad rest,
       lines = good ++ bad :: rest →
       Forall (λ line, valid_utf8 line = true) good →
       valid_utf8 bad = false →
       execute W cmd user host true true t
       = (Raise UnicodeDecodeError, t ++ EvPopen cmd :: (EvProgress <$> accumulated good)))
  ∧ (Forall (λ line, valid_utf8 line = true) lines
     ∨ ∃ good bad rest,
         lines = good ++ bad :: rest
         ∧ Forall (λ line, valid_utf8 line = true) good
         ∧ valid_utf8 bad = false)
  ∧ ∀ given : list string,
      progress_calls (t ++ EvPopen cmd :: (EvProgress <$> accumulated given))
      = progress_calls t ++ accumulated given
      ∧ length (accumulated given) = length given
      ∧ (∀ i a, accumulated given !! i = Some a →
                a = String.concat "" (take (S i) given))
      ∧ (∀ i j a b, (i ≤ j)%nat →
           accumulated given !! i = Some a → accumulated given !! j = Some b →
           String.prefix a b = true).
Proof.
  intros Hpopen. rewrite (execute_local_unfold W cmd user host true t lines) by done.
  split_and!.
  - intros Hall. rewrite read_stdout_decodable by done. rewrite app_empty_l.
    split; [by rewrite <-(assoc_L (++))|apply accumulated_last].
  - intros good bad rest -> Hgood Hbad. rewrite read_stdout_undecodable by done.
    by rewrite <-(assoc_L (++)).
  - apply decodable_split.
  - intros given. split_and!.
    + change (EvPopen cmd :: ?l) with ([EvPopen cmd] ++ l).
      by rewrite !progress_calls_app, progress_calls_fmap.
    + apply accumulated_length.
    + by intros i a [_ ->]%accumulated_lookup_Some.
    + apply accumulated_growing.
Qed.

Lemma execute_local_progress_witness :
  execute (scripted_world [] ["a"; "b"; "c"] task7_loads plain_yaml_dump)
    (CmdStr "make") None None true true []
  = (Ok "abc", [EvPopen (CmdStr "make"); EvProgress "a"; EvProgress "ab"; EvProgress "abc"])
  ∧ execute (scripted_world [] ["a"; "b"; undecodable_line; "c"] task7_loads plain_yaml_dump)
      (CmdStr "make") None None true true []
    = (Raise UnicodeDecodeError, [EvPopen (CmdStr "make"); EvProgress "a"; EvProgress "ab"]).
Proof.
  split.
  - destruct (execute_local_progress
                (scripted_world [] ["a"; "b"; "c"] task7_loads plain_yaml_dump)
                (CmdStr "make") None None [] ["a"; "b"; "c"]) as ([Hex _] & _);
      [reflexivity|repeat constructor|].
    rewrite Hex. by vm_compute.
  - destruct (execute_local_progress
                (scripted_world [] ["a"; "b"; undecodable_line; "c"]
                   task7_loads plain_yaml_dump)
                (CmdStr "make") None None [] ["a"; "b"; undecodable_line; "c"])
      as (_ & Hbad & _); [reflexivity|].
    rewrite (Hbad ["a"; "b"] undecodable_line ["c"]);
      [by vm_compute|done|repeat constructor|by vm_compute].
Defined.

Example execute_local_scripted :
  execute (scripted_world [] ["a"; "b"; "c"] task7_loads plain_yaml_dump)
    (CmdStr "make") None None true true []
  = (Ok "abc", [EvPopen (CmdStr "make"); EvProgress "a"; EvProgress "ab"; EvProgress "abc"]).
Proof. by vm_compute. Qed.

(** ** The live status callback *)

Lemma remote_only_lift {A} (r : result A) : remote_only (lift r).
Proof. intros t r' t' [= <- <-]. exists []. by rewrite app_nil_r. Qed.

Lemma remote_only_ret {A} (a : A) : remote_only (ret a).
Proof. apply (remote_only_lift (Ok a)). Qed.

Lemma remote_only_ask {A} (f : trace → result A) : remote_only (ask f).
Proof. intros t r' t' [= <- <-]. exists []. by rewrite app_nil_r. Qed.

Lemma remote_only_emit ev : is_remote_event ev = true → remote_only (emit ev).
Proof. intros Hev t r' t' [= <- <-]. exists [ev]. cbn. by rewrite Hev. Qed.

Lemma remote_only_bind {A B} (m : M A) (k : A → M B) :
  remote_only m → (∀ a, remote_only (k a)) → remote_only (bind m k).
Proof.
  intros Hm Hk t r t'. unfold bind.
  destruct (m t) as [[a|e] t1] eqn:Em; destruct (Hm _ _ _ Em) as (d1 & -> & Hd1).
  - intros Ek. destruct (Hk a _ _ _ Ek) as (d2 & -> & Hd2).
    exists (d1 ++ d2). by rewrite (assoc_L (++)), forallb_app, Hd1, Hd2.
  - intros [= <- <-]. eauto.
Qed.

Create HintDb remote.
#[local] Hint Resolve remote_only_lift remote_only_ret remote_only_ask
  remote_only_emit remote_only_bind : remote.

Lemma remote_only_execute (W : World) cmd user host progress :
  remote_only (execute W cmd user host progress false).
Proof. unfold execute. repeat (apply remote_only_bind; [auto with remote|intros ?]); auto with remote. Qed.

Lemma remote_only_pueue_status (W : World) task_id full :
  remote_only (__pueue_status W task_id full).
Proof.
  unfold __pueue_status, status.
  repeat (apply remote_only_bind; [auto using remote_only_execute with remote|intros ?]);
    auto with remote.
Qed.

Lemma set_progress_calls_app (t u : trace) :
  set_progress_calls (t ++ u) = set_progress_calls t ++ set_progress_calls u.
Proof. apply omap_app. Qed.

Lemma sleeps_app (t u : trace) : sleeps (t ++ u) = sleeps t ++ sleeps u.
Proof. apply omap_app. Qed.

Lemma remote_events_quiet (d : trace) :
  forallb is_remote_event d = true → set_progress_calls d = [] ∧ sleeps d = [].
Proof.
  induction d as [|ev d IH]; [done|]. cbn [forallb].
  intros [Hev Hd]%andb_true_iff. destruct (IH Hd) as [IH1 IH2].
  unfold set_progress_calls, sleeps in *. destruct ev; try done; cbn; auto.
Qed.

(** The element list shows the status it was built from. *)
Lemma status_ui_shows_status (W : World) task_id st ui :
  status_ui W task_id st = Ok ui →
  ∃ tag rest1 cls rest2,
    ui = Div (Div [P "Status"; Span (Text (st_status st)) tag] None :: rest1) cls :: rest2.
Proof.
  unfold status_ui. destruct (json_lower (st_status st)); [|done].
  intros [= <-]. by eexists _, _, _, _.
Qed.

Lemma pueue_status_ui (W : World) task_id full t st ui t' :
  __pueue_status W task_id full t = (Ok (st, ui), t') → status_ui W task_id st = Ok ui.
Proof.
  unfold __pueue_status, bind.
  destruct (status W (PyStr task_id) full None None t) as [[st'|e] t1]; [|done].
  unfold lift. destruct (status_ui W task_id st') as [ui'|e] eqn:E; [|done].
  unfold ret. intros [= ? ? ?]. by subst.
Qed.

Lemma pueue_status_ui_differs (W : World) task_id full t1 s1 t1' t2 s2 t2' :
  __pueue_status W task_id full t1 = (Ok s1, t1') →
  __pueue_status W task_id full t2 = (Ok s2, t2') →
  st_status s1.1 ≠ st_status s2.1 → s1.2 ≠ s2.2.
Proof.
  destruct s1 as [st1 ui1], s2 as [st2 ui2]. cbn.
  intros H1%pueue_status_ui H2%pueue_status_ui Hne ->.
  apply status_ui_shows_status in H1 as (? & ? & ? & ? & ->).
  apply status_ui_shows_status in H2 as (? & ? & ? & ? & [= E]).
  done.
Qed.

Lemma live_loop_polled (W : World) task_id full t obs final t' :
  polled W task_id full t obs final t' →
  ∀ fuel, (length obs < fuel)%nat →
    live_loop W fuel task_id full t = (Ok (Some final), t')
    ∧ ∃ new, t' = t ++ new
        ∧ set_progress_calls new = (λ s, (progress_title W s.1, s.2)) <$> obs
        ∧ sleeps new = (λ _, 5) <$> obs.
Proof.
  induction 1 as [t s t' label Hq Hl Hterm|t s t' label obs final t'' Hq Hl Hterm _ IH];
    intros fuel Hfuel; (destruct fuel as [|fuel]; [cbn in Hfuel; lia|]);
    destruct (remote_only_pueue_status W task_id full _ _ _ Hq) as (d & -> & Hd);
    apply remote_events_quiet in Hd as [Hd1 Hd2].
  - split.
    + cbn [live_loop]. unfold bind at 1. rewrite Hq. unfold bind at 1, lift at 1.
      rewrite Hl. cbn [in_terminal_states]. by rewrite bool_decide_eq_true_2.
    + exists d. by rewrite Hd1, Hd2.
  - destruct (IH fuel) as (Hloop & new & Hnew & Hcalls & Hsleeps); [cbn in Hfuel; lia|].
    split.
    + cbn [live_loop]. unfold bind at 1. rewrite Hq. unfold bind at 1, lift at 1.
      rewrite Hl. cbn [in_terminal_states]. rewrite bool_decide_eq_false_2 by done.
      unfold bind at 1, emit at 1. unfold bind at 1, emit at 1.
      rewrite <-(assoc_L (++) (t ++ d)). exact Hloop.
    + exists (d ++ [EvSetProgress (progress_title W s.1) s.2; EvSleep 5] ++ new).
      split; [by rewrite Hnew, !(assoc_L (++))|].
      rewrite !set_progress_calls_app, !sleeps_app, Hd1, Hd2, Hcalls, Hsleeps. done.
Qed.

Lemma running_not_terminal : "Running" ∉ terminal_states.
Proof.
  unfold terminal_states. rewrite !elem_of_union, !elem_of_singleton.
  intros [[[?|?]|?]|?]; discriminate.
Qed.

Lemma success_terminal : "Success" ∈ terminal_states.
Proof.
  unfold terminal_states. rewrite !elem_of_union, !elem_of_singleton. by right.
Qed.

(** C2.  In live mode, when the three status queries of a run answer
    Running, Running and Success: with fuel for three turns or more the
    callback returns once, with the title and the elements of the Success
    status; during the run [set_progress] was called exactly twice, with
    the two Running observations, and never with the elements of the
    Success status; each of the two calls was followed by one pause of
    five seconds. *)
Theorem live_polling_running_running_success (W : World) (task_id : string) (full : bool)
    (t0 t1 t2 t3 : trace) (s1 s2 s3 : status_dict * list html) :
  task_id ≠ "" →
  __pueue_status W task_id full t0 = (Ok s1, t1) →
  st_status s1.1 = JStr "Running" →
  __pueue_status W task_id full
    (t1 ++ [EvSetProgress (progress_title W s1.1) s1.2; EvSleep 5]) = (Ok s2, t2) →
  st_status s2.1 = JStr "Running" →
  __pueue_status W task_id full
    (t2 ++ [EvSetProgress (progress_title W s2.1) s2.2; EvSleep 5]) = (Ok s3, t3) →
  st_status s3.1 = JStr "Success" →
  ∀ fuel, (3 ≤ fuel)%nat →
    __pueue_status_callback W fuel (Some task_id) (Some true) (Some full) t0
    = (Ok (Some (Outputs (final_title W s3.1) s3.2 "")), t3)
    ∧ ∃ new, t3 = t0 ++ new
        ∧ set_progress_calls new
          = [(progress_title W s1.1, s1.2); (progress_title W s2.1, s2.2)]
        ∧ (∀ call, call ∈ set_progress_calls new → call.2 ≠ s3.2)
        ∧ sleeps new = [5; 5].
Proof.
  intros Hid Hq1 Hl1 Hq2 Hl2 Hq3 Hl3 fuel Hfuel.
  assert (polled W task_id full t0 [s1; s2] s3 t3) as Hpolled.
  { eapply polled_more; [exact Hq1|exact Hl1|exact running_not_terminal|].
    eapply polled_more; [exact Hq2|exact Hl2|exact running_not_terminal|].
    eapply polled_done; [exact Hq3|exact Hl3|exact success_terminal]. }
  destruct (live_loop_polled W task_id full t0 [s1; s2] s3 t3 Hpolled fuel)
    as (Hloop & new & Hnew & Hcalls & Hsleeps); [cbn; lia|].
  split.
  - destruct task_id as [|c s]; [done|]. unfold __pueue_status_callback.
    unfold bind at 1. by rewrite Hloop.
  - exists new. split_and!; [done|done| |done].
    intros call. rewrite Hcalls. cbn [fmap list_fmap].
    intros [->|[->|[]%elem_of_nil]%elem_of_cons]%elem_of_cons; cbn.
    + eapply pueue_status_ui_differs; [exact Hq1|exact Hq3|]. by rewrite Hl1, Hl3.
    + eapply pueue_status_ui_differs; [exact Hq2|exact Hq3|]. by rewrite Hl2, Hl3.
Qed.

Lemma live_polling_running_running_success_witness :
  let W := scripted_world ["running"; "running"; "success"] [] task7_loads plain_yaml_dump in
  ∃ (s1 s2 s3 : status_dict * list html) (t3 : trace),
    __pueue_status_callback W 3 (Some "7") (Some true) (Some false) []
    = (Ok (Some (Outputs (final_title W s3.1) s3.2 "")), t3)
    ∧ ∃ new, t3 = [] ++ new
        ∧ set_progress_calls new
          = [(progress_title W s1.1, s1.2); (progress_title W s2.1, s2.2)]
        ∧ (∀ call, call ∈ set_progress_calls new → call.2 ≠ s3.2)
        ∧ sleeps new = [5; 5].
Proof.
  intros W. do 4 eexists.
  eapply (live_polling_running_running_success W "7" false []).
  - done.
  - by_evaluation.
  - reflexivity.
  - by_evaluation.
  - reflexivity.
  - by_evaluation.
  - reflexivity.
  - lia.
Defined.

Example live_polling_scripted :
  let W := scripted_world ["running"; "running"; "success"] [] task7_loads plain_yaml_dump in
  let run := __pueue_status_callback W 3 (Some "7") (Some true) (Some false) [] in
  fst <$> set_progress_calls run.2 = ["Task 7 @ train..."; "Task 7 @ train..."]
  ∧ (λ o, match o with
          | Some (Outputs title _ cls) => Some (title, cls)
          | _ => None
          end) <$> run.1 = Ok (Some ("Task 7 @train", ""))
  ∧ (__pueue_status_callback W 2 (Some "7") (Some true) (Some false) []).1 = Ok None
  ∧ (__pueue_status_callback W 3 None (Some true) (Some false) []) = (Ok (Some no_update), []).
Proof. by vm_compute. Qed.

(** ** Notebook parameters *)

Lemma sextet_of_char_of (x : Base64.sextet) : Base64.sextet_of (Base64.char_of x) = Some x.
Proof. destruct x as [[[[[[] []] []] []] []] []]; by vm_compute. Qed.

Lemma char_of_ascii (x : Base64.sextet) : byte_in 0 127 (Base64.char_of x) = true.
Proof. destruct x as [[[[[[] []] []] []] []] []]; by vm_compute. Qed.

Lemma sextet_of_pad : Base64.sextet_of "="%char = None.
Proof. by vm_compute. Qed.

(** Induction on a string three characters at a time. *)
Lemma string_by_triples (P : string → Prop) :
  P "" →
  (∀ a, P (String a "")) →
  (∀ a b, P (String a (String b ""))) →
  (∀ a b c t, P t → P (String a (String b (String c t)))) →
  ∀ s, P s.
Proof.
  intros H0 H1 H2 H3 s.
  assert (∀ n s, (String.length s ≤ n)%nat → P s) as Hn; [|by eapply Hn].
  clear s. induction n as [|n IH]; intros [|a [|b [|c t]]] Hlen; cbn in Hlen; auto; try lia.
  - apply H3, IH. lia.
Qed.

Lemma b64decode_b64encode (s : string) :
  Base64.b64decode (Base64.b64encode s) = Some s.
Proof.
  induction s as [|a|a b|a b c t IH] using string_by_triples; [done|..].
  - destruct a as [a0 a1 a2 a3 a4 a5 a6 a7].
    cbn [Base64.b64encode Base64.b64decode].
    rewrite !sextet_of_char_of, sextet_of_pad. cbn [mbind option_bind].
    by rewrite bool_decide_eq_true_2.
  - destruct a as [a0 a1 a2 a3 a4 a5 a6 a7], b as [b0 b1 b2 b3 b4 b5 b6 b7].
    cbn [Base64.b64encode Base64.b64decode].
    rewrite !sextet_of_char_of, sextet_of_pad. cbn [mbind option_bind].
    by rewrite bool_decide_eq_true_2.
  - destruct a as [a0 a1 a2 a3 a4 a5 a6 a7], b as [b0 b1 b2 b3 b4 b5 b6 b7],
      c as [c0 c1 c2 c3 c4 c5 c6 c7].
    cbn [Base64.b64encode Base64.b64decode].
    rewrite !sextet_of_char_of. cbn [mbind option_bind]. by rewrite IH.
Qed.

Lemma valid_utf8_ascii (s : string) : all_ascii s = true → valid_utf8 s = true.
Proof.
  induction s as [|c t IH]; [done|]. cbn [all_ascii valid_utf8].
  intros [-> Ht]%andb_true_iff. auto.
Qed.

Lemma b64encode_ascii (s : string) : all_ascii (Base64.b64encode s) = true.
Proof.
  induction s as [|a|a b|a b c t IH] using string_by_triples; [done|..].
  - destruct a. cbn [Base64.b64encode all_ascii]. by rewrite !char_of_ascii.
  - destruct a, b. cbn [Base64.b64encode all_ascii]. by rewrite !char_of_ascii.
  - destruct a, b, c. cbn [Base64.b64encode all_ascii]. by rewrite !char_of_ascii, IH.
Qed.


(** * Further properties *)

(** ** Resolved commands read by a shell *)

Lemma sh_plain_word_text (w : string) : sh_plain_word w = true → sh_plain_text w = true.
Proof.
  induction w as [|c t IH]; [done|]. cbn [sh_plain_word sh_plain_text].
  destruct t as [|c' t']; [by intros ->|].
  intros [-> Ht]%andb_true_iff. by rewrite IH.
Qed.

Lemma sh_plain_text_app (u v : string) :
  sh_plain_text (u +:+ v) = sh_plain_text u && sh_plain_text v.
Proof.
  induction u as [|c u IH]; [done|]. rewrite app_cons. cbn [sh_plain_text].
  by rewrite IH, andb_assoc.
Qed.

(** A plain character goes to the word being read. *)
Lemma sh_lex_plain_char (c : ascii) (cur : option string) (rest : string) :
  sh_plain c = true →
  sh_lex ShUnquoted cur (String c rest) = sh_lex ShUnquoted (sh_push cur c) rest.
Proof.
  unfold sh_plain. intros Hc%negb_true_iff.
  apply orb_false_iff in Hc as [Hc Hspecial]. apply orb_false_iff in Hc as [Hc Hblank].
  apply orb_false_iff in Hc as [Hquote Hback].
  cbn [sh_lex]. by rewrite Hquote, Hback, Hblank, Hspecial.
Qed.

Lemma sh_lex_plain_text (w : string) (cur : string) (rest : string) :
  sh_plain_text w = true →
  sh_lex ShUnquoted (Some cur) (w +:+ rest) = sh_lex ShUnquoted (Some (cur +:+ w)) rest.
Proof.
  revert cur. induction w as [|c w IH]; intros cur.
  - intros _. by rewrite app_empty_l, app_empty_r.
  - cbn [sh_plain_text]. intros [Hc Hw]%andb_true_iff.
    rewrite app_cons, sh_lex_plain_char by done. unfold sh_push. cbn [default].
    unfold id. rewrite IH by done. by rewrite app_assoc_str.
Qed.

Lemma sh_lex_plain_start (w : string) (rest : string) :
  sh_plain_word w = true →
  sh_lex ShUnquoted None (w +:+ rest) = sh_lex ShUnquoted (Some w) rest.
Proof.
  destruct w as [|c w]; [done|]. intros Hw%sh_plain_word_text.
  cbn [sh_plain_text] in Hw. apply andb_true_iff in Hw as [Hc Hw].
  rewrite app_cons, sh_lex_plain_char by done. unfold sh_push. cbn [default].
  unfold id. rewrite app_empty_l. by rewrite sh_lex_plain_text.
Qed.

(** A quoted part in the middle of a line. *)
Lemma sh_lex_single_quoted_then (s w rest : string) :
  sh_lex ShSingle (Some w) (subst_char "'" "\''" s +:+ "'" +:+ rest)
  = sh_lex ShUnquoted (Some (w +:+ subst_char "'" "\" s)) rest.
Proof.
  revert w. induction s as [|c t IH]; intros w.
  - cbn [subst_char]. rewrite ?app_empty_l, ?app_cons, ?app_empty_l. cbn [sh_lex].
    compare_chars. by rewrite ?app_empty_l, ?app_empty_r.
  - cbn [subst_char]. case_bool_decide as Hc.
    + subst c. rewrite !app_cons, app_empty_l. cbn [sh_lex]. compare_chars.
      unfold sh_push, sh_open. cbn [default]. unfold id. rewrite IH.
      by rewrite ?app_assoc_str, ?app_cons, ?app_empty_l.
    + rewrite app_cons. cbn [sh_lex]. rewrite bool_decide_eq_false_2 by done.
      unfold sh_push. cbn [default]. unfold id. rewrite IH.
      by rewrite ?app_assoc_str, ?app_cons, ?app_empty_l.
Qed.


Lemma sh_lex_open_quote (w rest : string) :
  sh_lex ShUnquoted (Some w) ("'" +:+ rest) = sh_lex ShSingle (Some w) rest.
Proof. rewrite app_cons, app_empty_l. cbn [sh_lex]. by compare_chars. Qed.

Lemma sh_lex_separator (w rest : string) :
  sh_lex ShUnquoted (Some w) (" " +:+ rest) = cons w <$> sh_lex ShUnquoted None rest.
Proof. rewrite app_cons, app_empty_l. cbn [sh_lex]. by compare_chars. Qed.

Lemma reads_as_plain (w : string) : sh_plain_word w = true → reads_as w w.
Proof. intros Hw rest. by apply sh_lex_plain_start. Qed.

Lemma reads_as_flag (k : string) : sh_plain_text k = true → reads_as ("--" +:+ k) ("--" +:+ k).
Proof.
  intros Hk rest. rewrite app_assoc_str.
  rewrite (sh_lex_plain_start "--") by done. by rewrite sh_lex_plain_text.
Qed.

Lemma reads_as_valued (k : string) (v : pyany) :
  sh_plain_text k = true →
  reads_as ("--" +:+ k +:+ "=" +:+ shell_escape v)
           ("--" +:+ k +:+ "=" +:+ subst_char "'" "\" (py_str v)).
Proof.
  intros Hk rest. rewrite shell_escape_subst, !app_assoc_str.
  rewrite (sh_lex_plain_start "--") by done.
  rewrite sh_lex_plain_text by done.
  rewrite (sh_lex_plain_text "=") by done.
  rewrite sh_lex_open_quote, sh_lex_single_quoted_then.
  by rewrite !app_assoc_str.
Qed.

(** Tokens joined by single spaces are read one word per token. *)
Lemma sh_words_join (tokens words : list string) :
  Forall2 reads_as tokens words →
  sh_words (PyStr.join " " tokens) = Some words.
Proof.
  unfold sh_words, PyStr.join.
  induction 1 as [|token word tokens words Hread Hrest IH]; [done|].
  destruct Hrest as [|token' word' tokens' words' Hread' Hrest'].
  - cbn [String.concat]. rewrite <-(app_empty_r token), Hread. done.
  - change (String.concat " " (token :: token' :: tokens'))
      with (token +:+ " " +:+ String.concat " " (token' :: tokens')).
    rewrite Hread, sh_lex_separator. by rewrite IH.
Qed.

Lemma reads_as_options (options : list (string * pyany)) :
  Forall (λ kv, sh_plain_text kv.1 = true) options →
  Forall2 reads_as (concat (option_tokens <$> options)) (concat (option_arguments <$> options)).
Proof.
  induction 1 as [|[k v] options Hk _ IH]; [constructor|].
  cbn [fmap list_fmap concat]. apply Forall2_app; [|exact IH].
  unfold option_tokens, option_arguments. cbn [fst snd] in *.
  pose proof (reads_as_valued k v Hk) as Hv. rewrite shell_escape_subst in Hv.
  destruct v as [|[]| | |]; try constructor; try constructor;
    try (by apply reads_as_flag); exact Hv.
Qed.

(** X1.  A (base, options) command whose base is a plain word and whose
    option names are plain is read by a shell as the base followed by one
    argument per emitted option: [--name] for a true boolean, and
    [--name=value] otherwise, the value being the string form with its
    blanks and special characters kept and each single quote turned into a
    backslash. *)
Theorem resolve_cmd_tuple_read_by_shell (base : string) (options : list (string * pyany)) :
  sh_plain_word base = true →
  Forall (λ kv, sh_plain_text kv.1 = true) options →
  ∃ line,
    resolve_cmd (CmdTuple base options) = Ok line
    ∧ sh_words line = Some (base :: concat (option_arguments <$> options)).
Proof.
  intros Hbase Hopts. eexists. split.
  { cbn [resolve_cmd]. by rewrite foldl_resolve_option. }
  apply sh_words_join. constructor; [by apply reads_as_plain|].
  by apply reads_as_options.
Qed.

Lemma resolve_cmd_tuple_read_by_shell_witness :
  ∃ line,
    resolve_cmd (CmdTuple "train.py" [("name", PyStr "it's a test; rm -rf $HOME");
                                      ("verbose", PyBool true); ("epochs", PyInt 3);
                                      ("resume", PyNone)]) = Ok line
    ∧ sh_words line = Some ["train.py"; "--name=it\s a test; rm -rf $HOME"; "--verbose";
                            "--epochs=3"].
Proof.
  apply (resolve_cmd_tuple_read_by_shell "train.py"
           [("name", PyStr "it's a test; rm -rf $HOME"); ("verbose", PyBool true);
            ("epochs", PyInt 3); ("resume", PyNone)]).
  - reflexivity.
  - repeat constructor.
Defined.

(** X2.  A command given as a list of plain words is read by a shell as
    these same words, in order. *)
Theorem resolve_cmd_list_read_by_shell (tokens : list string) :
  Forall (λ w, sh_plain_word w = true) tokens →
  ∃ line, resolve_cmd (CmdList tokens) = Ok line ∧ sh_words line = Some tokens.
Proof.
  intros Htokens. eexists. split; [done|]. apply sh_words_join.
  induction Htokens as [|w tokens Hw _ IH]; constructor; [by apply reads_as_plain|done].
Qed.

Lemma resolve_cmd_list_read_by_shell_witness :
  ∃ line,
    resolve_cmd (CmdList ["python"; "-m"; "pytest"; "tests/unit"]) = Ok line
    ∧ sh_words line = Some ["python"; "-m"; "pytest"; "tests/unit"].
Proof.
  apply (resolve_cmd_list_read_by_shell ["python"; "-m"; "pytest"; "tests/unit"]).
  repeat constructor.
Defined.

(** ** Remote execution *)

Lemma exec_count_app (t u : trace) : exec_count (t ++ u) = (exec_count t + exec_count u)%nat.
Proof. unfold exec_count. by rewrite List.filter_app, length_app. Qed.

(** What a remote execution that returns has done. *)
Lemma execute_remote_inv (W : World) (cmd : CMDType) (user host : option string)
    (progress : bool) (t t' : trace) (out : string) :
  execute W cmd user host progress false t = (Ok out, t') →
  ∃ c,
    resolve_cmd cmd = Ok c
    ∧ t' = t ++ [EvConnect (py_or host (WORKER_HOST (ENV W)))
                   (py_or user (WORKER_USER (ENV W))) (expanduser W (PUBKEY (ENV W)));
                 EvExecCommand c; EvClose]
    ∧ ssh_exec_command W
        (t ++ [EvConnect (py_or host (WORKER_HOST (ENV W)))
                 (py_or user (WORKER_USER (ENV W))) (expanduser W (PUBKEY (ENV W)));
               EvExecCommand c]) c = Ok out
    ∧ valid_utf8 out = true.
Proof.
  unfold execute, bind, lift, emit, ask, ret.
  destruct (cmd_len_check cmd); [|done].
  destruct (ssh_connect W _ _ _ _); [|done].
  destruct (resolve_cmd cmd) as [c|]; [|done].
  destruct (ssh_exec_command W _ _) as [bytes|] eqn:Hexec; [|done].
  unfold decode_utf8. destruct (valid_utf8 bytes) eqn:Hvalid; [|done].
  intros [= <- <-]. exists c. rewrite <-(assoc_L (++)) in Hexec.
  by rewrite <-!(assoc_L (++)).
Qed.

(** What makes a remote execution return. *)
Lemma execute_remote_intro (W : World) (cmd : CMDType) (user host : option string)
    (progress : bool) (t : trace) (c out : string) :
  ssh_connect W
    (t ++ [EvConnect (py_or host (WORKER_HOST (ENV W)))
             (py_or user (WORKER_USER (ENV W))) (expanduser W (PUBKEY (ENV W)))])
    (py_or host (WORKER_HOST (ENV W))) (py_or user (WORKER_USER (ENV W)))
    (expanduser W (PUBKEY (ENV W))) = Ok () →
  resolve_cmd cmd = Ok c →
  ssh_exec_command W
    (t ++ [EvConnect (py_or host (WORKER_HOST (ENV W)))
             (py_or user (WORKER_USER (ENV W))) (expanduser W (PUBKEY (ENV W)));
           EvExecCommand c]) c = Ok out →
  valid_utf8 out = true →
  execute W cmd user host progress false t
  = (Ok out,
     t ++ [EvConnect (py_or host (WORKER_HOST (ENV W)))
             (py_or user (WORKER_USER (ENV W))) (expanduser W (PUBKEY (ENV W)));
           EvExecCommand c; EvClose]).
Proof.
  intros Hconnect Hc Hexec Hvalid.
  unfold execute, bind, lift, emit, ask, ret. cbv zeta.
  assert (cmd_len_check cmd = Ok ()) as ->.
  { destruct cmd as [| | | |[]]; try done. }
  rewrite Hconnect, Hc. rewrite <-(assoc_L (++)). cbn [app].
  rewrite Hexec. unfold decode_utf8. rewrite Hvalid.
  by rewrite <-!(assoc_L (++)).
Qed.

(** X3.  A remote execution returns exactly when the connection to the
    given or configured host, as the given or configured user and with the
    configured key file (its path with the home directory put for a leading
    [~]), is accepted, the command then resolves, and the host answers it
    with valid UTF-8.  It has then connected, executed the resolved command
    and closed the session, in this order and nothing else, and what it
    returns is the answer of the host. *)
Theorem execute_remote_returns (W : World) (cmd : CMDType) (user host : option string)
    (progress : bool) (t t' : trace) (out : string) :
  execute W cmd user host progress false t = (Ok out, t')
  ↔ ∃ c,
      ssh_connect W
        (t ++ [EvConnect (py_or host (WORKER_HOST (ENV W)))
                 (py_or user (WORKER_USER (ENV W))) (expanduser W (PUBKEY (ENV W)))])
        (py_or host (WORKER_HOST (ENV W))) (py_or user (WORKER_USER (ENV W)))
        (expanduser W (PUBKEY (ENV W))) = Ok ()
      ∧ resolve_cmd cmd = Ok c
      ∧ ssh_exec_command W
          (t ++ [EvConnect (py_or host (WORKER_HOST (ENV W)))
                   (py_or user (WORKER_USER (ENV W))) (expanduser W (PUBKEY (ENV W)));
                 EvExecCommand c]) c = Ok out
      ∧ valid_utf8 out = true
      ∧ t' = t ++ [EvConnect (py_or host (WORKER_HOST (ENV W)))
                     (py_or user (WORKER_USER (ENV W))) (expanduser W (PUBKEY (ENV W)));
                   EvExecCommand c; EvClose].
Proof.
  split.
  - unfold execute, bind, lift, emit, ask, ret. cbv zeta.
    destruct (cmd_len_check cmd); [|done].
    destruct (ssh_connect W _ _ _ _) as [[]|] eqn:Hconnect; [|done].
    destruct (resolve_cmd cmd) as [c|]; [|done].
    destruct (ssh_exec_command W _ _) as [bytes|] eqn:Hexec; [|done].
    unfold decode_utf8. destruct (valid_utf8 bytes) eqn:Hvalid; [|done].
    intros [= <- <-]. exists c. rewrite <-(assoc_L (++)) in Hexec.
    by rewrite <-!(assoc_L (++)).
  - intros (c & Hconnect & Hc & Hexec & Hvalid & ->).
    by apply execute_remote_intro.
Qed.

Lemma execute_remote_returns_witness :
  execute (scripted_world ["total 0"] [] task7_loads plain_yaml_dump)
    (CmdList ["ls"; "-l"]) (Some "") (Some "10.0.0.7") false false []
  = (Ok "total 0",
     [EvConnect "10.0.0.7" "task_runner" "/root/.ssh/id_ed25519.pub";
      EvExecCommand "ls -l"; EvClose]).
Proof.
  apply (execute_remote_returns
           (scripted_world ["total 0"] [] task7_loads plain_yaml_dump)
           (CmdList ["ls"; "-l"]) (Some "") (Some "10.0.0.7") false []).
  exists "ls -l". split_and!; by vm_compute.
Defined.

(** The events of a remote execution, whatever its outcome. *)
Lemma execute_remote_session_inv (W : World) (cmd : CMDType) (user host : option string)
    (progress : bool) (t t' : trace) (r : result string) :
  execute W cmd user host progress false t = (r, t') →
  ∃ new,
    t' = t ++ new
    ∧ (EvClose ∈ new ↔ is_ok r = true)
    ∧ (exec_count new ≤ 1)%nat
    ∧ progress_calls new = []
    ∧ forallb is_remote_event new = true.
Proof.
  unfold execute, bind, lift, emit, ask, ret.
  destruct (cmd_len_check cmd); [|intros [= <- <-]; exists []; session_left_open].
  destruct (ssh_connect W _ _ _ _); [|intros [= <- <-]; eexists [_]; session_left_open].
  destruct (resolve_cmd cmd) as [c|]; [|intros [= <- <-]; eexists [_]; session_left_open].
  destruct (ssh_exec_command W _ _) as [bytes|];
    [|intros [= <- <-]; eexists [_; _]; session_left_open].
  destruct (decode_utf8 bytes); [|intros [= <- <-]; eexists [_; _]; session_left_open].
  intros [= <- <-].
  eexists [_; _; _]. split_and!.
  - by rewrite <-!(assoc_L (++)).
  - split; [done|]. intros _. rewrite !elem_of_cons. tauto.
  - cbn. lia.
  - done.
  - done.
Qed.

(** X4.  Whatever happens in a remote execution: the session is closed
    exactly when the call returns (an error after the connection leaves
    the session open); at most one command is executed; the progress sink
    is never called. *)
Theorem execute_remote_session (W : World) (cmd : CMDType) (user host : option string)
    (progress : bool) (t t' : trace) (r : result string) :
  execute W cmd user host progress false t = (r, t') →
  ∃ new,
    t' = t ++ new
    ∧ (EvClose ∈ new ↔ is_ok r = true)
    ∧ (exec_count new ≤ 1)%nat
    ∧ progress_calls new = []
    ∧ forallb is_remote_event new = true.
Proof. apply execute_remote_session_inv. Qed.

Lemma execute_remote_session_witness :
  ∃ new,
    [EvConnect "192.168.0.94" "task_runner" "/root/.ssh/id_ed25519.pub"; EvExecCommand "cat blob"]
    = [] ++ new
    ∧ (EvClose ∈ new ↔ is_ok (Raise UnicodeDecodeError : result string) = true).
Proof.
  destruct (execute_remote_session
              (scripted_world [undecodable_line] [] task7_loads plain_yaml_dump)
              (CmdStr "cat blob") None None true []
              [EvConnect "192.168.0.94" "task_runner" "/root/.ssh/id_ed25519.pub";
               EvExecCommand "cat blob"]
              (Raise UnicodeDecodeError))
    as (new & Hnew & Hclose & _); [by vm_compute|].
  exists new. split; [exact Hnew|exact Hclose].
Defined.

(** ** Submission *)

(** What a submission that returns an id has done. *)
Lemma queue_inv (W : World) (cmd : CMDType) (task : string)
    (user host : option string) (t t' : trace) (n : Z) :
  queue W cmd task user host t = (Ok n, t') →
  (task = "train" ∨ task = "inference" ∨ task = "create")
  ∧ ∃ c ack,
      resolve_cmd cmd = Ok c
      ∧ t' = t ++ [EvConnect (py_or host (WORKER_HOST (ENV W)))
                     (py_or user (WORKER_USER (ENV W))) (expanduser W (PUBKEY (ENV W)));
                   EvExecCommand ("./pueue add -g " +:+ task +:+ " -- " +:+ c); EvClose]
      ∧ execute W (CmdStr ("./pueue add -g " +:+ task +:+ " -- " +:+ c)) user host false false t
        = (Ok ack, t')
      ∧ PyStr.contains "New task added" ack = true
      ∧ digits_of ack ≠ []
      ∧ n = decimal_value (digits_of ack).
Proof.
  intros Hq. unfold queue in Hq. case_bool_decide as Htask; [|done].
  split; [by apply elem_of_available_tasks|].
  unfold bind at 1, lift at 1 in Hq. destruct (resolve_cmd cmd) as [c|] eqn:Hc; [|done].
  unfold bind at 1 in Hq.
  destruct (execute W _ user host false false t) as [[ack|e] t1] eqn:Hex; [|done].
  destruct (PyStr.contains "New task added" ack) eqn:Hphrase; [|done].
  unfold lift in Hq. rewrite int_filter_digits in Hq.
  destruct (digits_of ack) as [|d ds] eqn:Hds; [done|]. injection Hq as <- <-.
  pose proof Hex as Hret.
  apply execute_remote_inv in Hret as (c' & [= <-] & Ht & _).
  exists c, ack. split_and!; [done|exact Ht|exact Hex|done|by rewrite Hds|by rewrite ?Hds].
Qed.

(** X5.  A submission that returns an id was made for one of the three
    groups with a command that resolves; it connected with the given or
    configured credentials, executed the one command [./pueue add -g group
    -- command] and closed the session; the answer held the confirmation
    phrase, and the id is the number its digits write. *)
Theorem queue_returns (W : World) (cmd : CMDType) (task : string)
    (user host : option string) (t t' : trace) (n : Z) :
  queue W cmd task user host t = (Ok n, t') →
  (task = "train" ∨ task = "inference" ∨ task = "create")
  ∧ ∃ c ack,
      resolve_cmd cmd = Ok c
      ∧ t' = t ++ [EvConnect (py_or host (WORKER_HOST (ENV W)))
                     (py_or user (WORKER_USER (ENV W))) (expanduser W (PUBKEY (ENV W)));
                   EvExecCommand ("./pueue add -g " +:+ task +:+ " -- " +:+ c); EvClose]
      ∧ execute W (CmdStr ("./pueue add -g " +:+ task +:+ " -- " +:+ c)) user host false false t
        = (Ok ack, t')
      ∧ PyStr.contains "New task added" ack = true
      ∧ digits_of ack ≠ []
      ∧ n = decimal_value (digits_of ack).
Proof. apply queue_inv. Qed.

Lemma queue_returns_witness :
  ("train" = "train" ∨ "train" = "inference" ∨ "train" = "create")
  ∧ ∃ c ack,
      resolve_cmd (CmdTuple "run" [("lr", PyStr "1e-3")]) = Ok c
      ∧ [EvConnect "192.168.0.94" "task_runner" "/root/.ssh/id_ed25519.pub";
         EvExecCommand "./pueue add -g train -- run --lr='1e-3'"; EvClose]
        = [] ++ [EvConnect (py_or None "192.168.0.94") (py_or None "task_runner")
                   "/root/.ssh/id_ed25519.pub";
                 EvExecCommand ("./pueue add -g " +:+ "train" +:+ " -- " +:+ c); EvClose]
      ∧ PyStr.contains "New task added" ack = true
      ∧ 12 = decimal_value (digits_of ack).
Proof.
  destruct (queue_returns
              (scripted_world ["New task added (id 12)."] [] task7_loads plain_yaml_dump)
              (CmdTuple "run" [("lr", PyStr "1e-3")]) "train" None None []
              [EvConnect "192.168.0.94" "task_runner" "/root/.ssh/id_ed25519.pub";
               EvExecCommand "./pueue add -g train -- run --lr='1e-3'"; EvClose] 12)
    as (Htask & c & ack & Hc & Ht & _ & Hphrase & _ & Hn); [by vm_compute|].
  split; [exact Htask|]. exists c, ack. by split_and!.
Defined.

(** X6.  Whatever its outcome, a submission reaches the outside only for
    one of the three groups and with a command that resolves; every event
    it makes belongs to one remote execution, and the only command it ever
    executes is the add command of its group. *)
Theorem queue_outside_calls (W : World) (cmd : CMDType) (task : string)
    (user host : option string) (t t' : trace) (r : result Z) :
  queue W cmd task user host t = (r, t') →
  ∃ new,
    t' = t ++ new
    ∧ forallb is_remote_event new = true
    ∧ (exec_count new ≤ 1)%nat
    ∧ (new ≠ [] →
       (task = "train" ∨ task = "inference" ∨ task = "create")
       ∧ ∃ c, resolve_cmd cmd = Ok c
              ∧ ∀ x, EvExecCommand x ∈ new
                     → x = "./pueue add -g " +:+ task +:+ " -- " +:+ c).
Proof.
  intros Hq. unfold queue in Hq. case_bool_decide as Htask.
  2: { injection Hq as <- <-. exists []. rewrite app_nil_r.
       split_and!; [done|done|cbn; lia|done]. }
  unfold bind at 1, lift at 1 in Hq. destruct (resolve_cmd cmd) as [c|] eqn:Hc.
  2: { injection Hq as <- <-. exists []. rewrite app_nil_r.
       split_and!; [done|done|cbn; lia|done]. }
  unfold bind at 1 in Hq.
  destruct (execute W _ user host false false t) as [r1 t1] eqn:Hex.
  assert (t' = t1) as ->.
  { destruct r1 as [ack|e]; [|by injection Hq].
    destruct (PyStr.contains "New task added" ack); by injection Hq. }
  pose proof Hex as Hsession.
  apply execute_remote_session_inv in Hsession as (new & -> & _ & Hcount & _ & Hremote).
  exists new. split_and!; try done. intros _.
  split; [by apply elem_of_available_tasks|]. exists c. split; [done|].
  intros x Hx. revert Hex. unfold execute, bind, lift, emit, ask, ret.
  cbn [cmd_len_check resolve_cmd].
  destruct (ssh_connect W _ _ _ _);
    [|intros [= _ Ht%app_inv_head]; subst new;
      by apply list_elem_of_singleton in Hx].
  destruct (ssh_exec_command W _ _) as [bytes|].
  2: { rewrite <-(assoc_L (++)). intros [= _ Ht%app_inv_head]. subst new.
       rewrite !elem_of_cons, elem_of_nil in Hx. by destruct Hx as [[=]|[[= ->]|[]]]. }
  destruct (decode_utf8 bytes); rewrite <-?(assoc_L (++));
    intros [= _ Ht%app_inv_head]; subst new;
    rewrite !elem_of_cons, elem_of_nil in Hx.
  - by destruct Hx as [[=]|[[= ->]|[[=]|[]]]].
  - by destruct Hx as [[=]|[[= ->]|[]]].
Qed.

Lemma queue_outside_calls_witness :
  ∃ new,
    [EvConnect "192.168.0.94" "task_runner" "/root/.ssh/id_ed25519.pub";
     EvExecCommand "./pueue add -g create -- ls"; EvClose] = [] ++ new
    ∧ (exec_count new ≤ 1)%nat.
Proof.
  destruct (queue_outside_calls
              (scripted_world ["pueue: daemon not running"] [] task7_loads plain_yaml_dump)
              (CmdStr "ls") "create" None None []
              [EvConnect "192.168.0.94" "task_runner" "/root/.ssh/id_ed25519.pub";
               EvExecCommand "./pueue add -g create -- ls"; EvClose]
              (Raise RuntimeError))
    as (new & Hnew & _ & Hcount & _); [by vm_compute|].
  exists new. by split.
Defined.

(** ** Status *)

(** X7.  A status query that returns has executed the one command
    [./pueue log -j id  -f] (or [-l 100] when the full log is not asked
    for) in one session; the answer parsed as JSON held an entry for the
    id; the id, command and group returned are the fields of its task, its
    log is the output of the entry, and its status is the normalised
    status field. *)
Theorem status_returns (W : World) (task_id : pyany) (full : bool)
    (user host : option string) (t t' : trace) (st : status_dict) :
  status W task_id full user host t = (Ok st, t') →
  ∃ out parsed entry task raw,
    t' = t ++ [EvConnect (py_or host (WORKER_HOST (ENV W)))
                 (py_or user (WORKER_USER (ENV W))) (expanduser W (PUBKEY (ENV W)));
               EvExecCommand ("./pueue log -j " +:+ py_str task_id +:+ " "
                              +:+ (if full then " -f" else " -l 100"));
               EvClose]
    ∧ execute W (CmdStr ("./pueue log -j " +:+ py_str task_id +:+ " "
                         +:+ (if full then " -f" else " -l 100")))
        user host false false t = (Ok out, t')
    ∧ json_loads W out = Ok parsed
    ∧ json_item (py_str task_id) parsed = Ok entry
    ∧ json_item "task" entry = Ok task
    ∧ json_item "id" task = Ok (st_id st)
    ∧ json_item "command" task = Ok (st_command st)
    ∧ json_item "group" task = Ok (st_group st)
    ∧ json_item "status" task = Ok raw
    ∧ simplify_pueue_status raw = Ok (st_status st)
    ∧ json_item "output" entry = Ok (st_log st).
Proof.
  unfold status, bind.
  destruct (execute W _ user host false false t) as [[out|e] t1] eqn:Hex; [|done].
  unfold lift, mbind, result_bind, mret, result_ret.
  destruct (json_loads W out) as [parsed|] eqn:Hparsed; [|done].
  destruct (json_item (py_str task_id) parsed) as [entry|] eqn:Hentry; [|done].
  destruct (json_item "task" entry) as [task|] eqn:Htask; [|done].
  destruct (json_item "id" task) as [id|] eqn:Hid; [|done].
  destruct (json_item "command" task) as [command|] eqn:Hcommand; [|done].
  destruct (json_item "group" task) as [group|] eqn:Hgroup; [|done].
  destruct (json_item "status" task) as [raw|] eqn:Hraw; [|done].
  destruct (simplify_pueue_status raw) as [label|] eqn:Hlabel; [|done].
  destruct (json_item "start" task) as [start|]; [|done].
  destruct (time_parser W start) as [started_at|]; [|done].
  destruct (json_item "end" task) as [end_|]; [|done].
  destruct (time_parser W end_) as [ended_at|]; [|done].
  destruct (json_item "created_at" task) as [created|]; [|done].
  destruct (time_parser W created) as [created_at|]; [|done].
  destruct (json_item "output" entry) as [log|] eqn:Hlog; [|done].
  intros [= <- <-]. pose proof Hex as Hret.
  apply execute_remote_inv in Hret as (c & [= <-] & Ht & _).
  exists out, parsed, entry, task, raw. by split_and!.
Qed.

Lemma status_returns_witness :
  ∃ out parsed entry task raw,
    json_loads (scripted_world ["success"] [] task7_loads plain_yaml_dump) out = Ok parsed
    ∧ json_item (py_str (PyInt 7)) parsed = Ok entry
    ∧ json_item "task" entry = Ok task
    ∧ json_item "status" task = Ok raw
    ∧ simplify_pueue_status raw = Ok (JStr "Success").
Proof.
  destruct (status_returns
              (scripted_world ["success"] [] task7_loads plain_yaml_dump)
              (PyInt 7) true None None []
              [EvConnect "192.168.0.94" "task_runner" "/root/.ssh/id_ed25519.pub";
               EvExecCommand "./pueue log -j 7  -f"; EvClose]
              {| st_id := JInt 7; st_command := JStr "python train.py";
                 st_group := JStr "train"; st_status := JStr "Success";
                 st_started_at := Some "2024-05-01"; st_ended_at := None;
                 st_created_at := Some "2024-05-01"; st_log := JStr "epoch 1" |})
    as (out & parsed & entry & task & raw & _ & _ & H1 & H2 & H3 & _ & _ & _ & H4 & H5 & _);
    [by vm_compute|].
  exists out, parsed, entry, task, raw. by split_and!.
Defined.

(** X8.  When the answer of the queue, parsed as JSON, is a mapping that
    has no entry for the task id, the status query raises [KeyError]; when
    it is not a mapping at all, [TypeError].  The session has been closed
    by then. *)
Theorem status_missing_entry (W : World) (task_id : pyany) (full : bool)
    (user host : option string) (t t' : trace) (out : string) (parsed : json) :
  execute W (CmdStr ("./pueue log -j " +:+ py_str task_id +:+ " "
                     +:+ (if full then " -f" else " -l 100")))
    user host false false t = (Ok out, t') →
  json_loads W out = Ok parsed →
  (∀ entry, json_item (py_str task_id) parsed ≠ Ok entry) →
  ∃ e,
    status W task_id full user host t = (Raise e, t')
    ∧ last t' = Some EvClose
    ∧ match parsed with
      | JDict _ => e = KeyError
      | _ => e = TypeError
      end.
Proof.
  intros Hex Hparsed Hentry. unfold status, bind. rewrite Hex.
  unfold lift, mbind, result_bind. rewrite Hparsed.
  apply execute_remote_inv in Hex as (c & _ & -> & _).
  destruct (json_item (py_str task_id) parsed) as [entry|e] eqn:He;
    [by destruct (Hentry entry)|].
  exists e. split_and!; [done|by rewrite last_app_cons|].
  destruct parsed as [| | | | |entries]; cbn in He; try by injection He as <-.
  destruct (dict_get (py_str task_id) entries); [done|by injection He as <-].
Qed.

Lemma status_missing_entry_witness :
  ∃ e,
    status (scripted_world ["running"] [] task7_loads plain_yaml_dump)
      (PyStr "8") false None None []
    = (Raise e,
       [EvConnect "192.168.0.94" "task_runner" "/root/.ssh/id_ed25519.pub";
        EvExecCommand "./pueue log -j 8  -l 100"; EvClose])
    ∧ e = KeyError.
Proof.
  destruct (status_missing_entry
              (scripted_world ["running"] [] task7_loads plain_yaml_dump)
              (PyStr "8") false None None []
              [EvConnect "192.168.0.94" "task_runner" "/root/.ssh/id_ed25519.pub";
               EvExecCommand "./pueue log -j 8  -l 100"; EvClose]
              "running" (task7_log (JStr "Running")))
    as (e & Hst & _ & He); [by vm_compute|by vm_compute|by intros entry; vm_compute|].
  exists e. split; [exact Hst|exact He].
Defined.

(** X9.  Of a time stamp only the first ten characters, the date, reach
    the parser: the time of day and the offset after it are dropped; a
    missing or empty stamp gives [None] without parsing. *)
Theorem time_parser_keeps_date (W : World) :
  (∀ day rest,
     String.length day = 10%nat → has_char "+" day = false →
     time_parser W (JStr (day +:+ rest)) = Some <$> fromisoformat W day)
  ∧ time_parser W JNull = Ok None
  ∧ time_parser W (JStr "") = Ok None.
Proof.
  split_and!; [|done|done].
  intros day rest Hlen Hplus.
  assert (json_truthy (JStr (day +:+ rest)) = true) as Htruthy.
  { destruct day; [done|]. rewrite app_cons. cbn. by rewrite bool_decide_eq_false_2. }
  unfold time_parser. rewrite Htruthy. f_equal. f_equal.
  do 11 (destruct day as [|? day]; try done).
  cbn in Hplus. repeat (apply orb_false_iff in Hplus as [? Hplus]).
  rewrite !app_cons. cbn [before_plus]. repeat (case_bool_decide; [done|]).
  reflexivity.
Qed.

Lemma time_parser_keeps_date_witness :
  time_parser (scripted_world [] [] task7_loads plain_yaml_dump)
    (JStr "2024-05-01T12:30:00.123456+02:00")
  = Ok (Some "2024-05-01").
Proof.
  destruct (time_parser_keeps_date (scripted_world [] [] task7_loads plain_yaml_dump))
    as (H & _).
  exact (H "2024-05-01" "T12:30:00.123456+02:00" eq_refl eq_refl).
Defined.

(** ** Notebook launch *)

(** X10.  A notebook launch that returns has executed, in one session on
    the notebook host with the notebook user, the one preparation command
    for the template of the normalised name and for a new file named after
    it and the time stamp; the link returned names that same file. *)
Theorem start_notebook_returns (W : World) (name : string)
    (parameters : option (gmap string pyany)) (t t' : trace) (url : string) :
  start_notebook W name parameters t = (Ok url, t') →
  ∃ notebook_name blob,
    notebook_name
    = PyStr.replace "template_" "" (PyStr.replace ".ipynb" "" name)
      +:+ "_" +:+ now_stamp W t +:+ ".ipynb"
    ∧ parameters_encoded W (default ∅ parameters) = Ok blob
    ∧ t' = t ++ [EvConnect (py_or (Some (JUPYTER_HOST (ENV W))) (WORKER_HOST (ENV W)))
                   (py_or (Some (JUPYTER_USER (ENV W))) (WORKER_USER (ENV W)))
                   (expanduser W (PUBKEY (ENV W)));
                 EvExecCommand
                   (papermill_cmd
                      (JUPYTER_TEMPLATE_FOLDER (ENV W) +:+ "/template_"
                       +:+ PyStr.replace "template_" "" (PyStr.replace ".ipynb" "" name)
                       +:+ ".ipynb")
                      (JUPYTER_NOTEBOOK_FOLDER (ENV W) +:+ "/generated/" +:+ notebook_name)
                      blob);
                 EvClose]
    ∧ url = "http://" +:+ JUPYTER_HOST (ENV W) +:+ ":" +:+ JUPYTER_PORT (ENV W)
            +:+ "/notebooks/generated/" +:+ notebook_name
            +:+ "?kernel_name=" +:+ JUPYTER_KERNEL_NAME (ENV W).
Proof.
  unfold start_notebook. cbv zeta.
  unfold bind at 1, ask at 1. unfold bind at 1, lift at 1.
  destruct (parameters_encoded W (default ∅ parameters)) as [blob|] eqn:Hblob; [|done].
  unfold bind at 1.
  destruct (execute W _ _ _ _ _ t) as [[out|e] t1] eqn:Hex; [|done].
  apply execute_remote_inv in Hex as (c & [= <-] & -> & _).
  unfold ret. intros [= <- <-]. by eexists _, _.
Qed.

Lemma start_notebook_returns_witness :
  ∃ notebook_name blob,
    notebook_name = "report_2024-05-01_12-00-00-000000.ipynb"
    ∧ blob = "YWxwaGE6IDEKYmV0YTogeAo="
    ∧ start_notebook (scripted_world [""] [] task7_loads plain_yaml_dump)
        "template_report.ipynb" (Some example_parameters) []
      = (Ok ("http://192.168.0.94:10123/notebooks/generated/" +:+ notebook_name
             +:+ "?kernel_name=python3"),
         [EvConnect "192.168.0.94" "task_runner" "/root/.ssh/id_ed25519.pub";
          EvExecCommand
            (papermill_cmd "~/notebooks/templates/template_report.ipynb"
               ("~/notebooks/generated/" +:+ notebook_name) blob);
          EvClose]).
Proof.
  destruct (start_notebook_returns
              (scripted_world [""] [] task7_loads plain_yaml_dump)
              "template_report.ipynb" (Some example_parameters) []
              [EvConnect "192.168.0.94" "task_runner" "/root/.ssh/id_ed25519.pub";
               EvExecCommand
                 (papermill_cmd "~/notebooks/templates/template_report.ipynb"
                    "~/notebooks/generated/report_2024-05-01_12-00-00-000000.ipynb"
                    "YWxwaGE6IDEKYmV0YTogeAo=");
               EvClose]
              "http://192.168.0.94:10123/notebooks/generated/report_2024-05-01_12-00-00-000000.ipynb?kernel_name=python3")
    as (notebook_name & blob & Hname & Hblob & _ & _); [by vm_compute|].
  exists notebook_name, blob. vm_compute in Hname, Hblob.
  injection Hblob as <-. subst notebook_name. split_and!; [done|done|by vm_compute].
Defined.



(** ** The settings taken from the environment *)

(** X24.  In a process whose settings were loaded from the environment, a
    remote execution that is given no host, or an empty one, connects to the
    host named by the variable [DHC_WORKER_HOST] when it is set, and to
    [192.168.0.94] otherwise; likewise for the user with [DHC_WORKER_USER]
    and [task_runner]; the key file it names is the path of [DHC_PUBKEY], or
    of [~/.ssh/id_ed25519.pub] when the variable is not set, with the home
    directory put for a leading [~].  A variable without the prefix [DHC_]
    changes nothing. *)
Theorem execute_settings_from_environment (W : World) (environ : gmap string string)
    (cmd : CMDType) (user host : option string) (progress : bool) (t t' : trace)
    (out : string) :
  ENV W = load_ENV environ →
  execute W cmd user host progress false t = (Ok out, t') →
  (∃ c,
     t' = t ++ [EvConnect
                  (py_or host (default "192.168.0.94" (environ !! "DHC_WORKER_HOST")))
                  (py_or user (default "task_runner" (environ !! "DHC_WORKER_USER")))
                  (expanduser W
                     (default "~/.ssh/id_ed25519.pub" (environ !! "DHC_PUBKEY")));
                EvExecCommand c; EvClose])
  ∧ ∀ key value,
      PyStr.contains "DHC_" key = false →
      load_ENV (<[key := value]> environ) = load_ENV environ.
Proof.
  intros HENV Hex. split.
  - apply execute_remote_inv in Hex as (c & _ & -> & _). exists c. by rewrite HENV.
  - intros key value Hkey. unfold load_ENV, env_setting.
    assert (∀ name, environ !! ("DHC_" +:+ name) = <[key := value]> environ !! ("DHC_" +:+ name))
      as Hsame.
    { intros name. rewrite lookup_insert_ne; [done|]. intros ->.
      pose proof (contains_app "DHC_" "" name) as Hprefix.
      rewrite app_empty_l in Hprefix. congruence. }
    by rewrite <-!Hsame.
Qed.

Lemma execute_settings_from_environment_witness :
  ∃ t',
    execute
      (world_in {[ "DHC_WORKER_HOST" := "10.0.0.7"; "DHC_PUBKEY" := "~/keys/dash.pub";
                   "WORKER_USER" := "root" ]} "ok")
      (CmdStr "ls") None (Some "") false false []
    = (Ok "ok", t')
    ∧ ∃ c, t' = [EvConnect "10.0.0.7" "task_runner" "/root/keys/dash.pub";
                 EvExecCommand c; EvClose].
Proof.
  exists [EvConnect "10.0.0.7" "task_runner" "/root/keys/dash.pub";
          EvExecCommand "ls"; EvClose].
  split; [by vm_compute|].
  destruct (execute_settings_from_environment
              (world_in {[ "DHC_WORKER_HOST" := "10.0.0.7"; "DHC_PUBKEY" := "~/keys/dash.pub";
                           "WORKER_USER" := "root" ]} "ok")
              {[ "DHC_WORKER_HOST" := "10.0.0.7"; "DHC_PUBKEY" := "~/keys/dash.pub";
                 "WORKER_USER" := "root" ]}
              (CmdStr "ls") None (Some "") false []
              [EvConnect "10.0.0.7" "task_runner" "/root/keys/dash.pub";
               EvExecCommand "ls"; EvClose] "ok")
    as [(c & Hc) _]; [done|by vm_compute|].
  exists c. rewrite Hc. by vm_compute.
Defined.

(** ** The status callback, in general *)

Lemma status_trace (W : World) task_id full user host t r t' :
  status W task_id full user host t = (r, t') →
  ∃ r0,
    execute W (CmdStr ("./pueue log -j " +:+ py_str task_id +:+ " "
                       +:+ (if full then " -f" else " -l 100")))
      user host false false t = (r0, t').
Proof.
  unfold status, bind.
  destruct (execute W _ user host false false t) as [[out|e] t1] eqn:Hex.
  - unfold lift. intros [= _ <-]. eauto.
  - intros [= _ <-]. eauto.
Qed.

Lemma pueue_status_trace (W : World) task_id full t r t' :
  __pueue_status W task_id full t = (r, t') →
  ∃ r0,
    execute W (CmdStr ("./pueue log -j " +:+ task_id +:+ " "
                       +:+ (if full then " -f" else " -l 100")))
      None None false false t = (r0, t').
Proof.
  unfold __pueue_status. unfold bind at 1.
  destruct (status W (PyStr task_id) full None None t) as [[st|e] t1] eqn:Hst;
    apply status_trace in Hst.
  - unfold bind, lift, ret. destruct (status_ui W task_id st); by intros [= _ <-].
  - by intros [= _ <-].
Qed.

(** X11.  In live mode, a run of status queries of which the first n answer
    labels that are not terminal and the next one a terminal label makes the
    callback, with fuel for more than n turns, return the outputs of the
    terminal status, after exactly n calls of [set_progress], one per
    observation and in order, each followed by a pause of five seconds. *)
Theorem live_polling_observations (W : World) (task_id : string) (full : bool)
    (t t' : trace) (obs : list (status_dict * list html))
    (final : status_dict * list html) :
  task_id ≠ "" →
  polled W task_id full t obs final t' →
  ∀ fuel, (length obs < fuel)%nat →
    __pueue_status_callback W fuel (Some task_id) (Some true) (Some full) t
    = (Ok (Some (Outputs (final_title W final.1) final.2 "")), t')
    ∧ ∃ new, t' = t ++ new
        ∧ set_progress_calls new = (λ s, (progress_title W s.1, s.2)) <$> obs
        ∧ sleeps new = (λ _, 5) <$> obs.
Proof.
  intros Hid Hpolled fuel Hfuel.
  destruct (live_loop_polled W task_id full t obs final t' Hpolled fuel Hfuel)
    as (Hloop & Hnew).
  split; [|exact Hnew].
  destruct task_id as [|c s]; [done|]. unfold __pueue_status_callback.
  unfold bind at 1. by rewrite Hloop.
Qed.

Lemma live_polling_observations_witness :
  let W := scripted_world ["running"; "success"] [] task7_loads plain_yaml_dump in
  ∃ (s1 final : status_dict * list html) (t' : trace),
    __pueue_status_callback W 5 (Some "7") (Some true) (Some true) []
    = (Ok (Some (Outputs (final_title W final.1) final.2 "")), t')
    ∧ ∃ new, t' = [] ++ new
        ∧ set_progress_calls new = (λ s, (progress_title W s.1, s.2)) <$> [s1]
        ∧ sleeps new = (λ _, 5) <$> [s1].
Proof.
  intros W. do 3 eexists.
  eapply (live_polling_observations W "7" true []); [done| |cbn; lia].
  eapply polled_more; [by_evaluation|reflexivity|exact running_not_terminal|].
  eapply polled_done; [by_evaluation|reflexivity|exact success_terminal].
Defined.

(** X12.  When every status query answers a label that is not terminal, the
    live loop does not end by itself: whatever number of turns it is given,
    it is still running after them, and has called [set_progress] and
    paused five seconds once per turn. *)
Theorem live_loop_has_no_bound (W : World) (task_id : string) (full : bool) :
  task_id ≠ "" →
  (∀ t, ∃ s t' label,
     __pueue_status W task_id full t = (Ok s, t')
     ∧ st_status s.1 = JStr label ∧ label ∉ terminal_states) →
  ∀ fuel t, ∃ new,
    __pueue_status_callback W fuel (Some task_id) (Some true) (Some full) t
    = (Ok None, t ++ new)
    ∧ length (set_progress_calls new) = fuel
    ∧ sleeps new = replicate fuel 5.
Proof.
  intros Hid Hsteady fuel t.
  assert (∃ new, live_loop W fuel task_id full t = (Ok None, t ++ new)
                 ∧ length (set_progress_calls new) = fuel
                 ∧ sleeps new = replicate fuel 5) as (new & Hloop & Hcalls & Hsleeps).
  { revert t. induction fuel as [|fuel IH]; intros t.
    - exists []. by rewrite app_nil_r.
    - destruct (Hsteady t) as (s & t1 & label & Hq & Hl & Hterm).
      destruct (remote_only_pueue_status W task_id full _ _ _ Hq) as (d & -> & Hd).
      apply remote_events_quiet in Hd as [Hd1 Hd2].
      destruct (IH ((t ++ d) ++ [EvSetProgress (progress_title W s.1) s.2; EvSleep 5]))
        as (new & Hloop & Hcalls & Hsleeps).
      exists (d ++ [EvSetProgress (progress_title W s.1) s.2; EvSleep 5] ++ new).
      split_and!.
      + cbn [live_loop]. unfold bind at 1. rewrite Hq. unfold bind at 1, lift at 1.
        rewrite Hl. cbn [in_terminal_states]. rewrite bool_decide_eq_false_2 by done.
        unfold bind at 1, emit at 1. unfold bind at 1, emit at 1.
        rewrite <-(assoc_L (++) (t ++ d)). etrans; [exact Hloop|].
        by rewrite <-!(assoc_L (++)).
      + rewrite !set_progress_calls_app, Hd1, !length_app, Hcalls. cbn. lia.
      + rewrite !sleeps_app, Hd2, Hsleeps. done. }
  exists new. split_and!; [|done|done].
  destruct task_id as [|c s]; [done|]. unfold __pueue_status_callback.
  unfold bind at 1. by rewrite Hloop.
Qed.

Lemma live_loop_has_no_bound_witness :
  ∃ new,
    __pueue_status_callback (steady_world "running" task7_loads) 4
      (Some "7") (Some true) (Some false) []
    = (Ok None, [] ++ new)
    ∧ length (set_progress_calls new) = 4%nat
    ∧ sleeps new = replicate 4 5.
Proof.
  apply (live_loop_has_no_bound (steady_world "running" task7_loads) "7" false); [done|].
  intros t. eexists _, _, "Running". split_and!; [by_evaluation|reflexivity|].
  exact running_not_terminal.
Defined.

(** X13.  Outside live mode the callback never calls [set_progress] and
    never pauses, and it always comes to an end: it makes at most one
    remote execution, with at most one command. *)
Theorem status_callback_not_live (W : World) (fuel : nat) (task_id : option string)
    (is_live full : option bool) (t t' : trace) (r : result (option callback_result)) :
  is_live ≠ Some true →
  __pueue_status_callback W fuel task_id is_live full t = (r, t') →
  ∃ new,
    t' = t ++ new
    ∧ r ≠ Ok None
    ∧ set_progress_calls new = []
    ∧ sleeps new = []
    ∧ (exec_count new ≤ 1)%nat.
Proof.
  intros Hlive. unfold __pueue_status_callback.
  assert (∀ u : trace, (Ok (Some no_update) : result (option callback_result), u) = (r, t') →
          t = u → ∃ new, t' = t ++ new ∧ r ≠ Ok None ∧ set_progress_calls new = []
                         ∧ sleeps new = [] ∧ (exec_count new ≤ 1)%nat) as Hguard.
  { intros u [= <- <-] ->. exists []. rewrite app_nil_r. split_and!; try done. cbn. lia. }
  destruct task_id as [[|c s]|]; [by eauto| |by eauto].
  destruct is_live as [[]|]; [done| |by eauto].
  destruct full as [full|]; [|by eauto].
  unfold ret. unfold bind at 1. unfold bind at 1.
  destruct (__pueue_status W (String c s) full t) as [r1 t1] eqn:Hq.
  pose proof Hq as Htrace. apply pueue_status_trace in Htrace as (r0 & Hex).
  apply execute_remote_session_inv in Hex as (new & -> & _ & Hcount & _ & Hremote).
  apply remote_events_quiet in Hremote as [Hcalls Hsleeps].
  destruct r1 as [status_|e]; intros [= <- <-]; exists new; by split_and!.
Qed.

Lemma status_callback_not_live_witness :
  ∃ new,
    [EvConnect "192.168.0.94" "task_runner" "/root/.ssh/id_ed25519.pub";
     EvExecCommand "./pueue log -j 7  -l 100"; EvClose] = [] ++ new
    ∧ set_progress_calls new = []
    ∧ sleeps new = [].
Proof.
  destruct (status_callback_not_live
              (steady_world "running" task7_loads) 0 (Some "7") (Some false) (Some false) []
              [EvConnect "192.168.0.94" "task_runner" "/root/.ssh/id_ed25519.pub";
               EvExecCommand "./pueue log -j 7  -l 100"; EvClose]
              (__pueue_status_callback (steady_world "running" task7_loads) 0
                 (Some "7") (Some false) (Some false) []).1)
    as (new & Hnew & _ & Hcalls & Hsleeps & _); [done|by vm_compute|].
  exists new. by split_and!.
Defined.

(** ** Queue again and kill *)

(** X14.  A triggered queue-again that returns has first queried the status
    of the task, then submitted, with the configured credentials, the add
    command for the group and the command that the status reports; a
    command that is a string is submitted as it is. *)
Theorem queue_again_returns (W : World) (task_id : pyany) (t t' : trace) (b : option bool) :
  __pueue_queue_again_callback W true task_id t = (Ok b, t') →
  b = Some true
  ∧ ∃ st t1 group c,
      status W task_id false None None t = (Ok st, t1)
      ∧ st_group st = JStr group
      ∧ resolve_cmd (cmd_of_json (st_command st)) = Ok c
      ∧ (∀ s, st_command st = JStr s → c = s)
      ∧ t' = t1 ++ [EvConnect (WORKER_HOST (ENV W)) (WORKER_USER (ENV W)) (expanduser W (PUBKEY (ENV W)));
                    EvExecCommand ("./pueue add -g " +:+ group +:+ " -- " +:+ c); EvClose].
Proof.
  unfold __pueue_queue_again_callback. cbn [negb]. unfold bind at 1.
  destruct (status W task_id false None None t) as [[st|e] t1] eqn:Hst; [|done].
  unfold bind at 1.
  destruct (queue_json W (st_command st) (st_group st) t1) as [[n|e] t2] eqn:Hq; [|done].
  unfold ret. intros [= <- <-]. split; [done|].
  unfold queue_json in Hq. destruct (st_group st) as [| | |group| |] eqn:Hg; try done.
  apply queue_inv in Hq as (_ & c & ack & Hc & Ht & _).
  exists st, t1, group, c. split_and!; [done|done|done| |done].
  intros s Hs. rewrite Hs in Hc. by injection Hc.
Qed.

Lemma queue_again_returns_witness :
  let W := scripted_world ["running"; "New task added (id 8)."] [] task7_loads
             plain_yaml_dump in
  ∃ st t1 group c,
    status W (PyStr "7") false None None [] = (Ok st, t1)
    ∧ st_group st = JStr group
    ∧ resolve_cmd (cmd_of_json (st_command st)) = Ok c
    ∧ [EvConnect "192.168.0.94" "task_runner" "/root/.ssh/id_ed25519.pub";
       EvExecCommand "./pueue log -j 7  -l 100"; EvClose;
       EvConnect "192.168.0.94" "task_runner" "/root/.ssh/id_ed25519.pub";
       EvExecCommand "./pueue add -g train -- python train.py"; EvClose]
      = t1 ++ [EvConnect (WORKER_HOST (ENV W)) (WORKER_USER (ENV W)) (expanduser W (PUBKEY (ENV W)));
               EvExecCommand ("./pueue add -g " +:+ group +:+ " -- " +:+ c); EvClose].
Proof.
  intros W.
  destruct (queue_again_returns W (PyStr "7") []
              [EvConnect "192.168.0.94" "task_runner" "/root/.ssh/id_ed25519.pub";
               EvExecCommand "./pueue log -j 7  -l 100"; EvClose;
               EvConnect "192.168.0.94" "task_runner" "/root/.ssh/id_ed25519.pub";
               EvExecCommand "./pueue add -g train -- python train.py"; EvClose]
              (Some true))
    as (_ & st & t1 & group & c & Hst & Hg & Hc & _ & Ht); [by vm_compute|].
  by exists st, t1, group, c.
Defined.

(** X15.  A task whose group is not one of train, inference and create
    cannot be queued again: after the status query the callback raises
    [ValueError], and nothing is submitted. *)
Theorem queue_again_unknown_group (W : World) (task_id : pyany) (t t1 : trace)
    (st : status_dict) (group : string) :
  status W task_id false None None t = (Ok st, t1) →
  st_group st = JStr group →
  group ≠ "train" → group ≠ "inference" → group ≠ "create" →
  __pueue_queue_again_callback W true task_id t = (Raise ValueError, t1).
Proof.
  intros Hst Hg H1 H2 H3. unfold __pueue_queue_again_callback. cbn [negb].
  unfold bind at 1. rewrite Hst. unfold bind at 1, queue_json. rewrite Hg.
  unfold queue. rewrite bool_decide_eq_false_2; [done|].
  rewrite elem_of_available_tasks. tauto.
Qed.

Lemma queue_again_unknown_group_witness :
  __pueue_queue_again_callback (steady_world "{}" task9_loads) true (PyInt 9) []
  = (Raise ValueError,
     [EvConnect "192.168.0.94" "task_runner" "/root/.ssh/id_ed25519.pub";
      EvExecCommand "./pueue log -j 9  -l 100"; EvClose]).
Proof.
  eapply (queue_again_unknown_group (steady_world "{}" task9_loads) (PyInt 9) [] _ _ "default");
    [by_evaluation|reflexivity|done|done|done].
Defined.



(** ** The tag list *)

(** X17.  The options of a tag list hold every tag and every given option
    and nothing else; the given options come last, in their order; and
    when neither the tags nor the given options repeat a value, no option
    is offered twice. *)
Theorem TagList_options (tags options : option (list string)) :
  (∀ x, x ∈ opt_value <$> (TagList tags options).1
        ↔ x ∈ default [] tags ∨ x ∈ default [] options)
  ∧ (∃ added, opt_value <$> (TagList tags options).1 = added ++ default [] options
              ∧ ∀ x, x ∈ added → x ∈ default [] tags ∧ x ∉ default [] options)
  ∧ (NoDup (default [] tags) → NoDup (default [] options) →
     NoDup (opt_value <$> (TagList tags options).1))
  ∧ (TagList tags options).2 = default [] tags
  ∧ Forall (λ o, opt_label o = opt_value o) (TagList tags options).1.
Proof.
  unfold TagList. cbn [fst snd].
  set (ts := default [] tags). set (os := default [] options).
  rewrite <-list_fmap_compose.
  assert ((opt_value ∘ (λ t, {| opt_label := t; opt_value := t |})) <$>
            (List.filter (λ t, negb (bool_decide (t ∈ os))) ts ++ os)
          = List.filter (λ t, negb (bool_decide (t ∈ os))) ts ++ os) as ->.
  { rewrite <-(list_fmap_id (_ ++ os)) at 2. by apply list_fmap_ext. }
  assert (∀ x, x ∈ List.filter (λ t, negb (bool_decide (t ∈ os))) ts ↔ x ∈ ts ∧ x ∉ os)
    as Hfilter.
  { intros x. rewrite !list_elem_of_In, List.filter_In, negb_true_iff, bool_decide_eq_false.
    by rewrite !list_elem_of_In. }
  split_and!.
  - intros x. rewrite elem_of_app, Hfilter.
    destruct (decide (x ∈ os)); tauto.
  - eexists. split; [done|]. intros x. by rewrite Hfilter.
  - intros Hts Hos. apply NoDup_app. split_and!; [|by intros x [_ ?]%Hfilter|done].
    apply NoDup_ListNoDup, List.NoDup_filter. by apply NoDup_ListNoDup.
  - done.
  - by apply Forall_fmap, Forall_true.
Qed.

(** X18.  Adding a tag answers [no_update] exactly when the callback was
    not triggered, or the value is missing or empty, or it is already the
    value of an option.  In every other case the tag is added: it becomes
    the last option, labelled by itself, and the last selected value, the
    options and the selection before it being kept.  Options without a
    repeated value stay so, and adding the same tag again answers
    [no_update]. *)
Theorem taglist_add_tag_new (triggered : bool) (value : option string)
    (tags : list dropdown_option) (value_ : option (list string)) :
  (taglist_add_tag triggered value tags value_ = None
   ↔ triggered = false ∨ value = None ∨ value = Some ""
     ∨ ∃ v, value = Some v ∧ v ∈ opt_value <$> tags)
  ∧ ∀ v,
      triggered = true → value = Some v → v ≠ "" → v ∉ opt_value <$> tags →
      taglist_add_tag triggered value tags value_
      = Some (tags ++ [{| opt_label := v; opt_value := v |}], default [] value_ ++ [v])
      ∧ (NoDup (opt_value <$> tags) →
         NoDup (opt_value <$> tags ++ [{| opt_label := v; opt_value := v |}]))
      ∧ ∀ again value_',
          taglist_add_tag again (Some v) (tags ++ [{| opt_label := v; opt_value := v |}])
            value_' = None.
Proof.
  split.
  - unfold taglist_add_tag. destruct value as [[|c s]|].
    + split; [intros _|done]. by right; right; left.
    + destruct triggered; cbn [negb]; [|split; [by left|done]].
      case_bool_decide as Hin.
      * split; [intros _|done]. right; right; right. by exists (String c s).
      * split; [done|]. intros [?|[?|[?|(v & [= <-] & Hv)]]]; done.
    + split; [intros _|done]. by right; left.
  - intros v -> -> Hv Hnew. split_and!.
    + unfold taglist_add_tag. destruct v as [|c s]; [done|]. cbn [negb].
      by rewrite bool_decide_eq_false_2.
    + intros Hnodup. rewrite fmap_app. apply NoDup_app. split_and!; [done| |].
      * intros x Hx [->|[]%elem_of_nil]%elem_of_cons. done.
      * apply NoDup_singleton.
    + intros again value_'. unfold taglist_add_tag. destruct v as [|c s]; [done|].
      destruct again; [|done]. cbn [negb].
      rewrite bool_decide_eq_true_2; [done|].
      rewrite fmap_app, elem_of_app. right. by apply list_elem_of_singleton.
Qed.

Lemma taglist_add_tag_new_witness :
  taglist_add_tag true (Some "urgent") [{| opt_label := "bug"; opt_value := "bug" |}]
    (Some ["bug"])
  = Some ([{| opt_label := "bug"; opt_value := "bug" |};
           {| opt_label := "urgent"; opt_value := "urgent" |}],
          ["bug"; "urgent"]).
Proof.
  destruct (taglist_add_tag_new true (Some "urgent")
              [{| opt_label := "bug"; opt_value := "bug" |}] (Some ["bug"]))
    as [_ Hadd].
  destruct (Hadd "urgent") as (Hadded & _); [done|done|done| |exact Hadded].
  rewrite list_fmap_singleton. by intros [=]%list_elem_of_singleton.
Defined.

Lemma TagList_options_witness :
  NoDup (opt_value <$> (TagList (Some ["new"; "bug"]) (Some ["bug"; "doc"])).1)
  ∧ opt_value <$> (TagList (Some ["new"; "bug"]) (Some ["bug"; "doc"])).1
    = ["new"; "bug"; "doc"].
Proof.
  destruct (TagList_options (Some ["new"; "bug"]) (Some ["bug"; "doc"]))
    as (_ & _ & Hnodup & _).
  split; [|by vm_compute].
  apply Hnodup; cbn [default]; repeat constructor; rewrite ?elem_of_cons, ?elem_of_nil;
    intros H; repeat destruct H as [H|H]; done.
Defined.

(** ** The notebook starter *)

Lemma str_drop_app (name rest : string) :
  str_drop (String.length name) (name +:+ rest) = rest.
Proof. induction name as [|c name IH]; [by destruct rest|]. by rewrite app_cons. Qed.

Lemma str_split_head_app (name rest : string) :
  PyStr.contains "__" (name +:+ "_") = false →
  str_split_head "__" (name +:+ "__" +:+ rest) = name.
Proof.
  change ("__" +:+ rest) with (String "_" (String "_" rest)).
  induction name as [|c name IH].
  { intros _. rewrite app_empty_l. cbn [str_split_head String.prefix].
    by rewrite prefix_empty. }
  rewrite !app_cons. cbn [PyStr.contains].
  destruct (String.prefix "__" (String c (name +:+ "_"))) eqn:Hprefix; [done|].
  intros Hrest. cbn [str_split_head].
  assert (String.prefix "__" (String c (name +:+ String "_" (String "_" rest))) = false)
    as ->.
  { revert Hprefix. cbn [String.prefix]. destruct (ascii_dec "_" c); [|done].
    destruct name as [|c' name].
    - rewrite !app_empty_l. cbn. by rewrite ?prefix_empty.
    - rewrite !app_cons. cbn [String.prefix].
      destruct (ascii_dec "_" c'); by rewrite ?prefix_empty. }
  by rewrite IH.
Qed.

(** X19.  The id of a notebook link is taken apart again into the name and
    the text of the parameters it was built from, provided the name holds no
    double underscore and does not end with an underscore; the request is
    made only for a triggered click on a link whose class does not hold
    [activated], and a click on a link without a class raises
    [TypeError]. *)
Theorem create_notebook_request_roundtrip (name param_string : string) (n_clicks : Z) :
  PyStr.contains "__" (name +:+ "_") = false →
  n_clicks ≠ 0 →
  (∀ cls, PyStr.contains "activated" cls = false →
     create_notebook_request true n_clicks (notebookstarter_id name param_string) (Some cls)
     = Ok (Some (name, param_string)))
  ∧ (∀ cls, PyStr.contains "activated" cls = true →
       create_notebook_request true n_clicks (notebookstarter_id name param_string) (Some cls)
       = Ok None)
  ∧ create_notebook_request true n_clicks (notebookstarter_id name param_string) None
    = Raise TypeError.
Proof.
  intros Hname Hn. unfold create_notebook_request, notebookstarter_id. cbn [negb].
  rewrite (proj2 (Z.eqb_neq n_clicks 0)) by done.
  split_and!; [|by intros cls ->|done].
  intros cls ->. rewrite str_split_head_app by done.
  replace (String.length name + 2)%nat with (String.length (name +:+ "__")).
  - by rewrite <-(app_assoc_str name "__"), str_drop_app.
  - clear. induction name as [|c name IH]; [done|]. rewrite app_cons. cbn. by rewrite IH.
Qed.

Lemma create_notebook_request_roundtrip_witness :
  create_notebook_request true 1
    (notebookstarter_id "umap_overview" "{}") (Some "button")
  = Ok (Some ("umap_overview", "{}")).
Proof.
  destruct (create_notebook_request_roundtrip "umap_overview" "{}" 1)
    as (H & _); [by vm_compute|done|].
  by apply H.
Defined.

(** ** Outputs for dropdowns and graphs *)

(** X20.  [options_output] selects nothing exactly when there are no
    options; and the value it selects for a single-value dropdown is always
    the value of one of the options it returns beside it, whatever value was
    asked for.  There is one option per item. *)
Theorem options_output_selected (listable : list pyany) (all : bool)
    (value : selection pyany) :
  ((options_output listable all value).1 = NoValue ↔ listable = [])
  ∧ (∀ v, (options_output listable all value).1 = OneValue v →
          [("label", PyStr v); ("value", PyStr v)] ∈ (options_output listable all value).2)
  ∧ length (options_output listable all value).2 = length listable.
Proof.
  unfold options_output, list_to_label_dict. cbn [fst snd foldl]. split_and!.
  - destruct listable; [done|]. destruct value; [by destruct all|by case_bool_decide|done].
  - intros v Hv. apply list_elem_of_fmap. destruct listable as [|first rest]; [done|].
    destruct value as [|asked|asked].
    + destruct all; [done|]. injection Hv as <-. exists first.
      split; [done|]. rewrite elem_of_cons. by left.
    + case_bool_decide as Hin; injection Hv as <-.
      * by exists (PyStr (py_str asked)).
      * exists first. split; [done|]. rewrite elem_of_cons. by left.
    + done.
  - apply length_fmap.
Qed.

Lemma options_output_selected_witness :
  (options_output [PyStr "umap"; PyInt 3] false (OneValue (PyStr "pca"))).1 = OneValue "umap"
  ∧ [("label", PyStr "umap"); ("value", PyStr "umap")]
    ∈ (options_output [PyStr "umap"; PyInt 3] false (OneValue (PyStr "pca"))).2.
Proof.
  split; [by vm_compute|].
  destruct (options_output_selected
              [PyStr "umap"; PyInt 3] false (OneValue (PyStr "pca"))) as (_ & Hin & _).
  by apply Hin.
Defined.

Lemma has_char_app (q : ascii) (s t : string) :
  has_char q (s +:+ t) = has_char q s || has_char q t.
Proof.
  induction s as [|c s IH]; [done|]. rewrite app_cons. cbn [has_char].
  by rewrite IH, orb_assoc.
Qed.

Lemma has_char_subst_char (q : ascii) (new s : string) :
  has_char q new = false → has_char q (subst_char q new s) = false.
Proof.
  intros Hnew. induction s as [|c t IH]; [done|]. cbn [subst_char].
  case_bool_decide as Hc.
  - by rewrite has_char_app, Hnew, IH.
  - cbn [has_char]. by rewrite bool_decide_eq_false_2.
Qed.

(** X21.  The file name [graph_output] offers for the image of a graph holds
    no slash, whatever the name of the graph, and is the name itself when
    that holds none. *)
Theorem graph_output_filename_no_slash (name : string) :
  has_char "/" (graph_output_filename name) = false
  ∧ (has_char "/" name = false → graph_output_filename name = name).
Proof.
  unfold graph_output_filename. rewrite replace_one_char. split.
  - by apply has_char_subst_char.
  - apply subst_char_absent.
Qed.

Lemma graph_output_filename_no_slash_witness :
  graph_output_filename "cohort/umap" = "cohort__umap"
  ∧ graph_output_filename "cohort_umap" = "cohort_umap".
Proof.
  split; [by vm_compute|].
  by apply (graph_output_filename_no_slash "cohort_umap").
Defined.

(** ** The plot download button *)

Lemma str_endswith_refl (s : string) : str_endswith s s = true.
Proof. destruct s; cbn [str_endswith]; by rewrite String.eqb_refl. Qed.

Lemma str_endswith_app (suffix s : string) : str_endswith suffix (s +:+ suffix) = true.
Proof.
  induction s as [|c s IH]; [by rewrite app_empty_l, str_endswith_refl|].
  rewrite app_cons. cbn [str_endswith]. rewrite IH. by destruct (String.eqb _ _).
Qed.

(** X22.  When the figure is rendered, the download the callback hands to the
    browser holds, Base64-encoded, exactly the bytes that were rendered, under
    a file name that ends with [.pdf]: the configured name as it is when it
    has the suffix already, with the suffix added when it has not.  The
    callback waits two seconds once and does nothing else outside. *)
Theorem plotdownloadbutton_returns (W : World) {Figure : Type}
    (full_figure_for_development : json → result Figure)
    (write_image : Figure → json → json → result string)
    (fig : json) (config id_ : list (string * json))
    (width height : json) (full : Figure) (pdf name : string) (t : trace) :
  config_or_layout config fig "width" (JInt 700) = Ok width →
  config_or_layout config fig "height" (JInt 500) = Ok height →
  full_figure_for_development fig = Ok full →
  write_image full width height = Ok pdf →
  download_filename W config id_ = Ok name →
  ∃ d,
    __plotdownloadbutton_callback W full_figure_for_development write_image
      fig config id_ t = (Ok d, t ++ [EvSleep 2])
    ∧ Base64.b64decode (dl_content d) = Some pdf
    ∧ str_endswith ".pdf" (dl_filename d) = true
    ∧ dl_filename d = (if str_endswith ".pdf" name then name else name +:+ ".pdf")
    ∧ dl_type d = "application/pdf" ∧ dl_base64 d = true.
Proof.
  intros Hwidth Hheight Hfull Hpdf Hname.
  unfold __plotdownloadbutton_callback, bind, lift, emit, ret, decode_utf8.
  rewrite Hwidth, Hheight, Hfull, Hpdf, Hname.
  rewrite valid_utf8_ascii by apply b64encode_ascii.
  eexists. split; [done|]. cbn [dl_content dl_filename dl_type dl_base64].
  split_and!; [apply b64decode_b64encode| |done..].
  destruct (str_endswith ".pdf" name) eqn:Hsuffix; [done|apply str_endswith_app].
Qed.

Lemma plotdownloadbutton_returns_witness :
  ∃ d,
    __plotdownloadbutton_callback (scripted_world [] [] task7_loads plain_yaml_dump)
      (λ fig, Ok fig) (λ _ _ _, Ok "%PDF-1.4")
      (JDict [("layout", JDict [("height", JInt 300)])])
      [("width", JInt 900); ("filename", JStr "umap")]
      [("module", JStr "plotdownloadbutton"); ("id", JStr "umap-graph")] []
    = (Ok d, [EvSleep 2])
    ∧ dl_content d = "JVBERi0xLjQ="
    ∧ dl_filename d = "umap.pdf".
Proof.
  destruct (plotdownloadbutton_returns
              (scripted_world [] [] task7_loads plain_yaml_dump)
              (λ fig, Ok fig) (λ _ _ _, Ok "%PDF-1.4")
              (JDict [("layout", JDict [("height", JInt 300)])])
              [("width", JInt 900); ("filename", JStr "umap")]
              [("module", JStr "plotdownloadbutton"); ("id", JStr "umap-graph")]
              (JInt 900) (JInt 300) (JDict [("layout", JDict [("height", JInt 300)])])
              "%PDF-1.4" "umap" [])
    as (d & Hd & _ & _ & Hname & _); [by vm_compute..|].
  exists d. split; [done|]. split; [|by rewrite Hname].
  vm_compute in Hd. by injection Hd as <-.
Defined.

(** ** The parameters in the URL *)

Lemma is_nat_pretty_N_char (d : N) :
  (d < 10)%N → Ascii.is_nat (pretty_N_char d) = Some (N.to_nat d).
Proof.
  intros Hd.
  assert (d = 0 ∨ d = 1 ∨ d = 2 ∨ d = 3 ∨ d = 4 ∨ d = 5 ∨ d = 6 ∨ d = 7 ∨ d = 8 ∨ d = 9)%N
    as Hcases by lia.
  repeat destruct Hcases as [->|Hcases]; try done. by subst.
Qed.

Lemma int_digits_pretty_N_go (x : N) (s : string) :
  PyStr.int_digits 0 (pretty_N_go x s) = PyStr.int_digits (Z.of_N x) s.
Proof.
  revert s. induction (N.lt_wf_0 x) as [x _ IH]. intros s.
  destruct (decide (x = 0)%N) as [->|Hx]; [done|].
  rewrite pretty_N_go_step by lia. rewrite IH by (apply N.div_lt; lia).
  cbn [PyStr.int_digits]. rewrite is_nat_pretty_N_char by (apply N.mod_lt; lia).
  f_equal. pose proof (N.div_mod x 10). lia.
Qed.

Lemma pretty_N_go_nonempty (x : N) (s : string) : s ≠ "" → pretty_N_go x s ≠ "".
Proof.
  revert s. induction (N.lt_wf_0 x) as [x _ IH]. intros s Hs.
  destruct (decide (x = 0)%N) as [->|Hx]; [done|].
  rewrite pretty_N_go_step by lia. apply IH; [apply N.div_lt; lia|done].
Qed.

Lemma pretty_N_go_no_p (x : N) (s : string) :
  has_char "p" s = false → has_char "p" (pretty_N_go x s) = false.
Proof.
  revert s. induction (N.lt_wf_0 x) as [x _ IH]. intros s Hs.
  destruct (decide (x = 0)%N) as [->|Hx]; [done|].
  rewrite pretty_N_go_step by lia. apply IH; [apply N.div_lt; lia|].
  cbn [has_char]. rewrite Hs, orb_false_r. apply bool_decide_eq_false_2.
  unfold pretty_N_char. by repeat case_match.
Qed.

Lemma int_pretty_nat (i : nat) : PyStr.int (pretty i) = Ok (Z.of_nat i).
Proof.
  unfold pretty, pretty_nat, pretty, pretty_N.
  destruct (decide (N.of_nat i = 0)%N) as [Hi|Hi].
  { by replace i with 0%nat by lia. }
  unfold PyStr.int. destruct (pretty_N_go (N.of_nat i) "") as [|c r] eqn:Hdigits.
  - rewrite pretty_N_go_step in Hdigits by lia. by apply pretty_N_go_nonempty in Hdigits.
  - rewrite <-Hdigits, int_digits_pretty_N_go. cbn [PyStr.int_digits]. f_equal. lia.
Qed.

Lemma pretty_nat_no_p (i : nat) : has_char "p" (pretty i) = false.
Proof.
  unfold pretty, pretty_nat, pretty, pretty_N.
  destruct (decide (N.of_nat i = 0)%N); [done|]. by apply pretty_N_go_no_p.
Qed.

Lemma replace_from_param_absent (s : string) :
  has_char "p" s = false → PyStr.replace_from "param" "" 0 s = s.
Proof.
  induction s as [|c t IH]; [done|]. cbn [has_char].
  intros [Hc Ht]%orb_false_iff. apply bool_decide_eq_false_1 in Hc.
  cbn [PyStr.replace_from String.prefix].
  destruct (ascii_dec "p" c) as [<-|_]; [done|]. by rewrite IH.
Qed.

Lemma int_url_input_key (i : nat) :
  PyStr.int (PyStr.replace "param" "" (url_input_key i)) = Ok (Z.of_nat i).
Proof.
  unfold url_input_key, PyStr.replace.
  change ("param" +:+ pretty i)
    with (String "p" (String "a" (String "r" (String "a" (String "m" (pretty i)))))).
  cbn [PyStr.replace_from String.prefix String.length Nat.pred].
  rewrite prefix_empty. cbn [ascii_dec ascii_rec ascii_rect sumbool_rec sumbool_rect].
  rewrite app_empty_l.
  destruct (pretty i) as [|c r] eqn:Hdigits.
  - pose proof (int_pretty_nat i) as Hint. by rewrite Hdigits in Hint.
  - rewrite <-Hdigits, replace_from_param_absent by apply pretty_nat_no_p.
    apply int_pretty_nat.
Qed.

Lemma hex_digit_read (n : N) :
  (n < 16)%N → hex_value (hex_digit n) = Some n ∧ url_always_safe (hex_digit n) = true.
Proof.
  intros Hn. destruct n as [|p]; [done|].
  do 5 (try destruct p as [p|p|]); try lia; by vm_compute.
Qed.

Lemma unquote_plus_quote_plus (s : string) : unquote_plus (quote_plus s) = s.
Proof.
  induction s as [|c t IH]; [done|]. cbn [quote_plus].
  case_bool_decide as Hspace.
  { subst c. cbn [unquote_plus]. by rewrite bool_decide_eq_true_2, IH. }
  destruct (url_always_safe c) eqn:Hsafe.
  { cbn [unquote_plus].
    rewrite !bool_decide_eq_false_2, IH; [done|by intros ->..]. }
  pose proof (N_ascii_bounded c) as Hbound.
  destruct (hex_digit_read (N_of_ascii c / 16)) as [Hhigh _].
  { apply N.Div0.div_lt_upper_bound. lia. }
  destruct (hex_digit_read (N_of_ascii c mod 16)) as [Hlow _].
  { by apply N.mod_lt. }
  cbn [unquote_plus].
  rewrite bool_decide_eq_false_2, bool_decide_eq_true_2 by done.
  rewrite Hhigh, Hlow, IH, <-N.div_mod by done. by rewrite ascii_N_embedding.
Qed.

Lemma quote_plus_quoted (s : string) : url_quoted (quote_plus s) = true.
Proof.
  induction s as [|c t IH]; [done|]. cbn [quote_plus].
  case_bool_decide as Hspace; [by cbn [url_quoted]; rewrite IH|].
  destruct (url_always_safe c) eqn:Hsafe; [by cbn [url_quoted]; rewrite Hsafe, IH|].
  pose proof (N_ascii_bounded c) as Hbound.
  destruct (hex_digit_read (N_of_ascii c / 16)) as [_ Hhigh].
  { apply N.Div0.div_lt_upper_bound. lia. }
  destruct (hex_digit_read (N_of_ascii c mod 16)) as [_ Hlow].
  { by apply N.mod_lt. }
  cbn [url_quoted]. by rewrite Hhigh, Hlow, IH.
Qed.

Lemma update_url_entry_given (registry search : list string) (i : nat) (value : pyany) :
  url_value_given value = true →
  (i < length registry)%nat →
  update_url_entry registry search (url_input_key i, value)
  = inr (search ++ [default "" (registry !! i) +:+ "=" +:+ quote_plus (py_str value)]).
Proof.
  intros Hgiven Hi. apply lookup_lt_is_Some_2 in Hi as [param Hparam].
  unfold update_url_entry. rewrite int_url_input_key, Nat2Z.id, Hparam.
  by destruct value as [| | |[|]|].
Qed.

Lemma update_url_entry_skipped (registry search : list string) (key : string)
    (value : pyany) :
  url_value_given value = false → update_url_entry registry search (key, value) = inr search.
Proof. by destruct value as [| | |[|]|]. Qed.

Lemma update_url_loop (registry : list string) (values : list (nat * pyany))
    (search : list string) :
  Forall (λ iv, (iv.1 < length registry)%nat) values →
  foldl (λ acc kv, match acc with
                   | inr search => update_url_entry registry search kv
                   | inl e => inl e
                   end) (inr search) ((λ iv, (url_input_key iv.1, iv.2)) <$> values)
  = inr (search
         ++ ((λ iv, default "" (registry !! iv.1) +:+ "=" +:+ quote_plus (py_str iv.2))
             <$> filter (λ iv, url_value_given iv.2 = true) values)).
Proof.
  intros Hvalues. revert search.
  induction Hvalues as [|[i value] values Hi _ IH]; intros search.
  { by rewrite app_nil_r. }
  cbn [fmap list_fmap foldl fst snd].
  destruct (url_value_given value) eqn:Hgiven.
  - rewrite update_url_entry_given by done. rewrite filter_cons_True by done.
    change (list_fmap ?A ?B ?f ?l) with (f <$> l). rewrite IH.
    by rewrite <-(assoc_L (++)).
  - rewrite update_url_entry_skipped by done.
    rewrite filter_cons_False by (cbn; congruence).
    change (list_fmap ?A ?B ?f ?l) with (f <$> l). by rewrite IH.
Qed.

(** X23.  Called with the values of the inputs under the keywords they are
    declared with, [update_url] never raises and returns a query: a question
    mark and one entry [name=value] for each value that is neither [None] nor
    the empty string, in the order of the inputs, joined by [&].  Each entry
    carries the registered name of its input, and its value is written with
    unreserved characters, [+] and [%] only, so that it cannot end the entry
    or the query, and is read back by the reader of query strings as the text
    of the value. *)
Theorem update_url_search (registry : list string) (values : list (nat * pyany)) :
  values ≠ [] →
  Forall (λ iv, (iv.1 < length registry)%nat) values →
  ∃ search,
    update_url registry ((λ iv, (url_input_key iv.1, iv.2)) <$> values)
    = inr (Some ("?" +:+ PyStr.join "&" search))
    ∧ Forall2 (λ entry iv,
                 ∃ param quoted,
                   registry !! iv.1 = Some param
                   ∧ entry = param +:+ "=" +:+ quoted
                   ∧ url_quoted quoted = true
                   ∧ unquote_plus quoted = py_str iv.2)
        search (filter (λ iv, url_value_given iv.2 = true) values).
Proof.
  intros Hvalues Hbound.
  exists ((λ iv, default "" (registry !! iv.1) +:+ "=" +:+ quote_plus (py_str iv.2))
            <$> filter (λ iv, url_value_given iv.2 = true) values).
  split.
  - unfold update_url. rewrite update_url_loop by done. by destruct values.
  - apply Forall2_fmap_l, Forall_Forall2_diag.
    apply Forall_forall.
    intros [i value] [_ Hin%(proj1 (Forall_forall _ _) Hbound)]%list_elem_of_filter.
    cbn [fst snd] in *. apply lookup_lt_is_Some_2 in Hin as [param Hparam].
    exists param, (quote_plus (py_str value)). cbn [fst snd]. rewrite Hparam.
    split_and!; [done|done|apply quote_plus_quoted|apply unquote_plus_quote_plus].
Qed.

Lemma update_url_search_witness :
  update_url ["cohort"; "gene"; "page"]
    [("param0", PyStr "lung & liver"); ("param1", PyStr ""); ("param2", PyInt 3)]
  = inr (Some "?cohort=lung+%26+liver&page=3")
  ∧ unquote_plus "lung+%26+liver" = "lung & liver".
Proof.
  destruct (update_url_search ["cohort"; "gene"; "page"]
              [(0%nat, PyStr "lung & liver"); (1%nat, PyStr ""); (2%nat, PyInt 3)])
    as (search & Hsearch & Hentries); [done|repeat constructor; cbn; lia|].
  split; by vm_compute.
Defined.

Lemma url_parameter_lengths (input_params : list (string * string)) (reg : url_registry) :
  length (_url_param_registry reg) = length (_url_inputs_registry reg) →
  length (_url_param_registry (url_parameter input_params reg))
  = length (_url_inputs_registry (url_parameter input_params reg)).
Proof.
  unfold url_parameter. revert reg.
  induction input_params as [|id_param rest IH]; intros reg Hreg; [done|].
  cbn [foldl]. apply IH. cbn. rewrite !length_app. cbn [length]. lia.
Qed.

Lemma url_input_key_inj (i j : nat) : url_input_key i = url_input_key j → i = j.
Proof.
  unfold url_input_key.
  change ("param" +:+ pretty i)
    with (String "p" (String "a" (String "r" (String "a" (String "m" (pretty i)))))).
  change ("param" +:+ pretty j)
    with (String "p" (String "a" (String "r" (String "a" (String "m" (pretty j)))))).
  intros [= Hpretty]. by apply (inj pretty) in Hpretty.
Qed.

Lemma url_inputs_declared (reg : url_registry) (i : nat) :
  url_input_key i ∈ (url_inputs reg).*1 → (i < length (_url_inputs_registry reg))%nat.
Proof.
  unfold url_inputs. intros [[key id_] [Hkey Hin]]%list_elem_of_fmap.
  apply list_elem_of_lookup in Hin as [j Hj]. rewrite list_lookup_imap in Hj.
  destruct (_url_inputs_registry reg !! j) as [id_j|] eqn:Hlookup; [|done].
  injection Hj as <- <-. apply url_input_key_inj in Hkey as ->.
  by apply lookup_lt_Some in Hlookup.
Qed.

Lemma url_registrations_lengths (calls : list (list (string * string)))
    (start : url_registry) :
  length (_url_param_registry start) = length (_url_inputs_registry start) →
  length (_url_param_registry
            (foldl (λ reg input_params, url_parameter input_params reg) start calls))
  = length (_url_inputs_registry
              (foldl (λ reg input_params, url_parameter input_params reg) start calls)).
Proof.
  revert start. induction calls as [|input_params calls IH]; intros start Hstart; [done|].
  cbn [foldl]. by apply IH, url_parameter_lengths.
Qed.

(** X25.  Whatever registrations were made with [url_parameter], the two
    registries have the same length; so [update_url], called with values for
    any of the inputs that [make_url_params_callback] declares for them,
    finds the name of every parameter: it does not raise, and when there is
    at least one value it returns a query. *)
Theorem update_url_declared_inputs (calls : list (list (string * string)))
    (values : list (nat * pyany)) :
  let reg := foldl (λ reg input_params, url_parameter input_params reg)
               url_registry_empty calls in
  length (_url_param_registry reg) = length (_url_inputs_registry reg)
  ∧ (Forall (λ iv, url_input_key iv.1 ∈ (url_inputs reg).*1) values →
     ∃ answer,
       update_url (_url_param_registry reg) ((λ iv, (url_input_key iv.1, iv.2)) <$> values)
       = inr answer
       ∧ (values ≠ [] → ∃ search, answer = Some ("?" +:+ PyStr.join "&" search))).
Proof.
  intros reg.
  assert (length (_url_param_registry reg) = length (_url_inputs_registry reg)) as Hlength.
  { subst reg. by apply url_registrations_lengths. }
  split; [done|]. intros Hdeclared.
  assert (Forall (λ iv, (iv.1 < length (_url_param_registry reg))%nat) values) as Hbound.
  { rewrite Hlength. eapply Forall_impl; [exact Hdeclared|].
    intros iv. apply url_inputs_declared. }
  unfold update_url. rewrite update_url_loop by done.
  destruct values; eexists; (split; [done|]); [done|]. intros _. by eexists.
Qed.

Lemma update_url_declared_inputs_witness :
  update_url ["cohort"; "gene"; "page"] [("param2", PyInt 3); ("param0", PyStr "")]
  = inr (Some "?page=3").
Proof.
  pose proof (update_url_declared_inputs
                [[("cohort-dropdown", "cohort")];
                 [("gene-input", "gene"); ("page-input", "page")]]
                [(2%nat, PyInt 3); (0%nat, PyStr "")]) as Hdeclared.
  cbv zeta in Hdeclared. destruct Hdeclared as [_ Hdeclared].
  destruct Hdeclared as (answer & Hanswer & _).
  - apply Forall_cons; split; [apply list_elem_of_lookup; by exists 2%nat|].
    apply Forall_cons; split; [apply list_elem_of_lookup; by exists 0%nat|].
    by apply Forall_nil.
  - by vm_compute.
Defined.

(** * The notebook parameters are read back

    The block style of YAML is read back as the mapping it was written
    for. *)






Lemma byte_in_spec (lo hi : N) (c : ascii) :
  byte_in lo hi c = true ↔ (lo ≤ N_of_ascii c ≤ hi)%N.
Proof. unfold byte_in. rewrite andb_true_iff, !N.leb_le. done. Qed.

Lemma byte_in_false (lo hi : N) (c : ascii) :
  byte_in lo hi c = false ↔ (N_of_ascii c < lo ∨ hi < N_of_ascii c)%N.
Proof. unfold byte_in. rewrite andb_false_iff, !N.leb_gt. done. Qed.














(** ** Printable text *)








(** ** Numbers *)






Lemma str_all_weaken (p q : ascii → bool) (s : string) :
  (∀ c, p c = true → q c = true) → str_all p s = true → str_all q s = true.
Proof.
  intros Hpq. induction s as [|c s IH]; [done|]. cbn [str_all].
  intros [Hc Hs]%andb_true_iff. by rewrite Hpq, IH.
Qed.

Lemma decimal_digits_printable (s : string) :
  decimal_digits s = true → str_all yaml_printable s = true.
Proof.
  destruct s as [|c t]; [done|]. cbn [decimal_digits str_all].
  case_bool_decide as Hc.
  - subst c. intros ->%bool_decide_eq_true. done.
  - intros [Hc' Ht]%andb_true_iff. apply andb_true_iff. split.
    + apply byte_in_spec in Hc'. apply byte_in_spec. lia.
    + eapply str_all_weaken; [|exact Ht].
      intros d Hd. apply byte_in_spec in Hd. apply byte_in_spec. lia.
Qed.


(** ** The shape of what is written plain *)










(** ** Entries, lines and the document *)









